(** * ChordPro web API: credential check, argument builder, conversion session

    A shallow embedding of [src/app.py].  Python values are an inductive
    type, [str] is a Rocq [string] (code points below 256, the range a
    decoded HTTP header can carry), the module globals [VALID_API_KEYS] and
    [DEVELOPMENT_MODE] are passed explicitly, the file system and the log are
    threaded as state, and the collaborators the code calls but does not
    define (the renderer child process, [uuid.uuid4], [os.unlink]) are
    arguments of the functions that call them. *)

From Stdlib Require Import ZArith List Bool Ascii String Lia PrimFloat.
From Stdlib Require Import Numbers.DecimalString.
Import ListNotations.
Open Scope string_scope.
Open Scope Z_scope.

(** [++] is string concatenation throughout; lists are joined with [+++]. *)
Notation "l1 +++ l2" := (List.app l1 l2) (at level 60, right associativity).

(** ** Python strings *)

Module PyStr.

Definition ord (c : ascii) : Z := Z.of_N (N_of_ascii c).
Definition chr (z : Z) : ascii := ascii_of_N (Z.to_N z).

(** [str.isspace] on one character, for code points below 256. *)
Definition isspace (c : ascii) : bool :=
  let n := ord c in
  ((9 <=? n) && (n <=? 13)) || ((28 <=? n) && (n <=? 32))
  || (n =? 133) || (n =? 160).

Fixpoint lstrip (s : string) : string :=
  match s with
  | EmptyString => EmptyString
  | String c s' => if isspace c then lstrip s' else s
  end.

(** Drops trailing white space: a character stays when it is not white
    space or when something stays after it. *)
Fixpoint rstrip (s : string) : string :=
  match s with
  | EmptyString => EmptyString
  | String c s' =>
      match rstrip s' with
      | EmptyString => if isspace c then EmptyString else String c EmptyString
      | r => String c r
      end
  end.

Definition strip (s : string) : string := rstrip (lstrip s).

(** [s.split(sep)] for a one-character separator: always at least one
    piece, empty pieces kept. *)
Fixpoint split (sep : ascii) (s : string) : list string :=
  match s with
  | EmptyString => [EmptyString]
  | String c s' =>
      if Ascii.eqb c sep then EmptyString :: split sep s'
      else match split sep s' with
           | p :: ps => String c p :: ps
           | [] => [String c EmptyString]
           end
  end.

(** [str.lower] on code points below 256: A-Z and the Latin-1 capitals. *)
Definition lower_char (c : ascii) : ascii :=
  let n := ord c in
  if ((65 <=? n) && (n <=? 90))
     || ((192 <=? n) && (n <=? 222) && negb (n =? 215))
  then chr (n + 32) else c.

Fixpoint lower (s : string) : string :=
  match s with
  | EmptyString => EmptyString
  | String c s' => String (lower_char c) (lower s')
  end.

(** [s.startswith(p)]. *)
Fixpoint startswith (p s : string) : bool :=
  match p, s with
  | EmptyString, _ => true
  | String a p', String b s' => Ascii.eqb a b && startswith p' s'
  | String _ _, EmptyString => false
  end.

(** [p in s]: [p] occurs in [s] as a substring. *)
Fixpoint contains (p s : string) : bool :=
  startswith p s ||
  match s with
  | EmptyString => false
  | String _ s' => contains p s'
  end.

(** [c in s] for one character. *)
Fixpoint has_char (c : ascii) (s : string) : bool :=
  match s with
  | EmptyString => false
  | String d s' => Ascii.eqb c d || has_char c s'
  end.

(** [s.replace(old, new)] for a non-empty [old]: scan from the left, at each
    match emit [new] and jump over the match ([skip] counts the characters
    of the match still to be jumped over). *)
Fixpoint replace_from (old new : string) (skip : nat) (s : string) : string :=
  match s with
  | EmptyString => EmptyString
  | String c s' =>
      match skip with
      | S k => replace_from old new k s'
      | O =>
          if startswith old s
          then new ++ replace_from old new (Nat.pred (String.length old)) s'
          else String c (replace_from old new 0 s')
      end
  end.

(** With an empty [old] Python puts [new] before every character and at the
    end. *)
Fixpoint intersperse (new s : string) : string :=
  match s with
  | EmptyString => new
  | String c s' => new ++ String c (intersperse new s')
  end.

Definition replace (old new s : string) : string :=
  match old with
  | EmptyString => intersperse new s
  | String _ _ => replace_from old new 0 s
  end.

(** [len(s)]. *)
Definition len (s : string) : Z := Z.of_nat (String.length s).

(** [s.encode('utf-8')] for code points below 256: one byte below 128, two
    bytes from 128 on. *)
Definition encode_char (c : ascii) : list Z :=
  let n := ord c in
  if n <? 128 then [n]
  else [Z.lor 192 (Z.shiftr n 6); Z.lor 128 (Z.land n 63)].

Fixpoint encode_utf8 (s : string) : list Z :=
  match s with
  | EmptyString => []
  | String c s' => encode_char c +++ encode_utf8 s'
  end.

(** [str(n)] for an [int]. *)
Definition of_int (z : Z) : string := NilEmpty.string_of_int (Z.to_int z).

End PyStr.

(** ** Python values, as [request.get_json] and the environment give them *)

#[warnings="-register-all"]
Inductive value : Type :=
| VNone
| VBool (b : bool)
| VInt (z : Z)
| VFloat (f : float)
| VStr (s : string)
| VList (l : list value)
| VDict (d : list (string * value)).

(** Truth value of an object, as [if x:] and [not x] take it. *)
Definition truthy (v : value) : bool :=
  match v with
  | VNone => false
  | VBool b => b
  | VInt z => negb (z =? 0)
  | VFloat f => negb (PrimFloat.eqb f 0%float)
  | VStr s => negb (String.eqb s "")
  | VList l => match l with [] => false | _ => true end
  | VDict d => match d with [] => false | _ => true end
  end.

Definition is_str (v : value) : bool :=
  match v with VStr _ => true | _ => false end.

(** ** CredentialStore *)

(** [hmac.compare_digest] on two [bytes] objects, as CPython computes it:
    the loop runs over the whole of the second argument, or-ing together the
    xor of each byte pair, with no exit before the end; when the lengths
    differ the second argument is compared with itself and the accumulator
    starts at 1. *)
Definition tscmp_loop (left right : list Z) (result : Z) : Z :=
  fold_left (fun acc xy => Z.lor acc (Z.lxor (fst xy) (snd xy)))
            (combine left right) result.

Definition compare_digest (a b : list Z) : bool :=
  if Nat.eqb (List.length a) (List.length b)
  then tscmp_loop a b 0 =? 0
  else tscmp_loop b b 1 =? 0.

Definition secure_compare_api_key (provided_key valid_key : value) : bool :=
  match provided_key, valid_key with
  | VStr p, VStr v =>
      let provided_bytes := PyStr.encode_utf8 p in
      let valid_bytes := PyStr.encode_utf8 v in
      compare_digest provided_bytes valid_bytes
  | _, _ => false
  end.

(** The loop of [is_valid_api_key] over [VALID_API_KEYS] (the keys in the
    order the set is iterated), returning with the result the stored keys
    that were handed to [secure_compare_api_key], in call order. *)
Fixpoint is_valid_loop (provided_key : value) (keys : list string)
  : bool * list string :=
  match keys with
  | [] => (false, [])
  | valid_key :: rest =>
      if secure_compare_api_key provided_key (VStr valid_key)
      then (true, [valid_key])
      else let (r, calls) := is_valid_loop provided_key rest in
           (r, valid_key :: calls)
  end.

Definition is_valid_api_key_calls (VALID_API_KEYS : list string)
    (provided_key : value) : bool * list string :=
  if negb (truthy provided_key) then (false, [])
  else is_valid_loop provided_key VALID_API_KEYS.

Definition is_valid_api_key (VALID_API_KEYS : list string)
    (provided_key : value) : bool :=
  fst (is_valid_api_key_calls VALID_API_KEYS provided_key).

(** ** Exceptions, results and the log *)

Inductive exn_kind : Set :=
| ValueError | RuntimeError | AttributeError | TypeError | OSError
| FileNotFoundError | UnicodeEncodeError
| BadRequest | Unauthorized | InternalServerError | SystemExit.

(** An exception: its class and [str(e)]. *)
Record exn : Set := Exn { exn_class : exn_kind; exn_str : string }.

Inductive result (A : Type) : Type :=
| Return (a : A)
| Raise (e : exn).
Arguments Return {A} a.
Arguments Raise {A} e.

Inductive level : Set := DEBUG | INFO | WARNING | ERROR.

(** The calls made on [logger], oldest first. *)
Definition log := list (level * string).

(** ** AccessPolicy: startup *)

Definition getenv (environ : list (string * string)) (name default : string)
  : string :=
  match find (fun kv => String.eqb (fst kv) name) environ with
  | Some kv => snd kv
  | None => default
  end.

Definition nonempty (s : string) : bool := negb (String.eqb s "").

(** [set.add]; the list keeps the order of first insertion. *)
Definition set_add (x : string) (s : list string) : list string :=
  if existsb (String.eqb x) s then s else s +++ [x].

(** [set.update]. *)
Definition set_update (s xs : list string) : list string :=
  fold_left (fun acc x => set_add x acc) xs s.

Definition count (l : list string) : string :=
  PyStr.of_int (Z.of_nat (List.length l)).

(** What [load_api_keys] leaves behind: the two globals, or [sys.exit]. *)
Inductive startup : Type :=
| Serving (VALID_API_KEYS : list string) (DEVELOPMENT_MODE : bool)
| Exited (code : Z).

Definition load_api_keys (environ : list (string * string)) : startup * log :=
  let DEVELOPMENT_MODE :=
    existsb (String.eqb (PyStr.lower (getenv environ "DEVELOPMENT_MODE" "")))
            ["true"; "1"; "yes"; "on"] in
  let api_keys_env := getenv environ "API_KEYS" "" in
  let '(keys0, log0) :=
    if nonempty api_keys_env then
      let keys := filter nonempty
                    (map PyStr.strip (PyStr.split "," api_keys_env)) in
      (set_update [] keys,
       [(INFO, "Loaded " ++ count keys
               ++ " API keys from API_KEYS environment variable")])
    else ([], []) in
  let '(VALID_API_KEYS, individual_keys) :=
    fold_left
      (fun acc kv =>
         if PyStr.startswith "API_KEY_" (fst kv) && nonempty (snd kv)
         then (set_add (PyStr.strip (snd kv)) (fst acc), snd acc + 1)
         else acc)
      environ (keys0, 0) in
  let log1 :=
    if 0 <? individual_keys
    then [(INFO, "Loaded " ++ PyStr.of_int individual_keys
                 ++ " additional API keys from individual environment variables")]
    else [] in
  let weak_keys := filter (fun key => PyStr.len key <? 16) VALID_API_KEYS in
  let log2 :=
    match weak_keys with
    | [] => []
    | _ => [(WARNING, "Found " ++ count weak_keys
                      ++ " API keys shorter than 16 characters - consider using stronger keys")]
    end in
  let log_pre := log0 +++ log1 +++ log2 in
  match VALID_API_KEYS, DEVELOPMENT_MODE with
  | [], false =>
      (Exited 1,
       log_pre +++
       [(ERROR, "SECURITY: No API keys configured and not in development mode.");
        (ERROR, "Either set API_KEYS environment variable or set DEVELOPMENT_MODE=true");
        (ERROR, "Refusing to start without authentication in production mode.")])
  | _, true =>
      (Serving VALID_API_KEYS DEVELOPMENT_MODE,
       log_pre +++
       [(WARNING, "DEVELOPMENT MODE ENABLED - Authentication disabled!");
        (WARNING, "Do not use DEVELOPMENT_MODE=true in production!")] +++
       match VALID_API_KEYS with
       | [] => []
       | _ => [(WARNING, "API keys configured but ignored in development mode")]
       end)
  | _ :: _, false =>
      (Serving VALID_API_KEYS DEVELOPMENT_MODE,
       log_pre +++
       [(INFO, "Production mode: Authentication enabled with "
               ++ count VALID_API_KEYS ++ " API key(s)")])
  end.

(** ** RequestGuard *)

(** What the guard and the handlers read from Flask's [request]. *)
Record request : Type := Request {
  endpoint : string;
  remote_addr : string;
  x_api_key : option string;   (* request.headers.get('X-API-Key') *)
  get_json : value
}.

Definition header_value (h : option string) : value :=
  match h with Some s => VStr s | None => VNone end.

(** [require_api_key(f)], applied to a request.  [f] is what the wrapped
    handler does when it is called; [Return f] says it was called. *)
Definition require_api_key {A : Type} (f : A)
    (VALID_API_KEYS : list string) (DEVELOPMENT_MODE : bool) (req : request)
  : result A * log :=
  (* Skip auth for health check and index page *)
  if existsb (String.eqb (endpoint req)) ["health"; "index"]
  then (Return f, [])
  (* In development mode, skip authentication *)
  else if DEVELOPMENT_MODE then (Return f, [])
  else
    let api_key := header_value (x_api_key req) in
    if negb (truthy api_key) || negb (is_valid_api_key VALID_API_KEYS api_key)
    then (Raise (Exn Unauthorized
                   "Valid API key required. Include 'X-API-Key' header."),
          [(WARNING, "Unauthorized access attempt from " ++ remote_addr req
                     ++ " to " ++ endpoint req)])
    else (Return f, []).

(** ** The outside world *)

(** Files that exist, with their bytes. *)
Definition fs := list (string * list Z).

Definition path_exists (p : string) (f : fs) : bool :=
  existsb (fun e => String.eqb (fst e) p) f.

Definition fs_remove (p : string) (f : fs) : fs :=
  filter (fun e => negb (String.eqb (fst e) p)) f.

Definition fs_write (p : string) (bytes : list Z) (f : fs) : fs :=
  (p, bytes) :: fs_remove p f.

Definition fs_read (p : string) (f : fs) : option (list Z) :=
  option_map snd (find (fun e => String.eqb (fst e) p) f).

Definition getsize (p : string) (f : fs) : Z :=
  match fs_read p f with
  | Some bytes => Z.of_nat (List.length bytes)
  | None => 0
  end.

(** [open(path, 'w')] followed by [f.write(content)]: everything written,
    [open] raised (no file), or [write] raised after the file was created. *)
Inductive write_outcome : Type :=
| Written
| OpenFailed (e : exn)
| WriteFailed (partial : list Z) (e : exn).

(** [subprocess.run(cmd, capture_output=True, text=True, timeout=30)]
    before [check=True] is applied to the return code. *)
Inductive run_outcome : Type :=
| Completed (returncode : Z) (stdout stderr : string)
| TimeoutExpired
| RunRaised (e : exn).

(** What the code calls and does not define. *)
Record world : Type := World {
  py_repr : value -> string;              (* repr() of floats and containers *)
  uuid4 : string;                         (* str(uuid.uuid4()) *)
  open_write : string -> string -> fs -> write_outcome;
  subprocess_run : list string -> fs -> fs * run_outcome;
  os_unlink : string -> fs -> option exn  (* None: the file is removed *)
}.

(** The characters of [str(uuid.uuid4())]. *)
Definition uuid_char (c : ascii) : bool := PyStr.has_char c "0123456789abcdef-".

Fixpoint uuid_text (s : string) : bool :=
  match s with
  | EmptyString => true
  | String c s' => uuid_char c && uuid_text s'
  end.

Definition type_name (v : value) : string :=
  match v with
  | VNone => "NoneType"
  | VBool _ => "bool"
  | VInt _ => "int"
  | VFloat _ => "float"
  | VStr _ => "str"
  | VList _ => "list"
  | VDict _ => "dict"
  end.

(** [d.get(k)] and [k in d] on a dict given by its items. *)
Definition dict_get (d : list (string * value)) (k : string) : option value :=
  option_map snd (find (fun kv => String.eqb (fst kv) k) d).

(** Sequencing of calls that may raise. *)
Definition bind {A B : Type} (r : result A) (k : A -> result B) : result B :=
  match r with
  | Return a => k a
  | Raise e => Raise e
  end.

Notation "x <- r ;; k" := (bind r (fun x => k))
  (at level 61, r at next level, right associativity).

(** ** ChordProProcessor *)

Section ChordProProcessor.

Context (W : world).

(** [str(v)], also what an f-string puts for [{v}]. *)
Definition py_str (v : value) : string :=
  match v with
  | VStr s => s
  | VInt z => PyStr.of_int z
  | VBool true => "True"
  | VBool false => "False"
  | VNone => "None"
  | _ => py_repr W v
  end.

Definition supported_outputs : list string := ["pdf"; "text"; "cho"; "html"].
Definition base_cmd : list string := ["chordpro"].

(** [cmd] is the list the Python code extends in place; the extended list
    is returned. *)
Definition _add_options (cmd : list value) (options : list (string * value))
  : result (list value) :=
  (* Transpose *)
  let cmd :=
    match dict_get options "transpose" with
    | Some v => cmd +++ [VStr "--transpose"; VStr (py_str v)]
    | None => cmd
    end in
  (* Metadata *)
  cmd <- match dict_get options "meta" with
         | Some (VDict items) =>
             Return (fold_left
                       (fun cmd kv =>
                          cmd +++ [VStr "--meta";
                                   VStr (fst kv ++ "=" ++ py_str (snd kv))])
                       items cmd)
         | Some v =>
             Raise (Exn AttributeError
                      ("'" ++ type_name v ++ "' object has no attribute 'items'"))
         | None => Return cmd
         end ;;
  (* Configuration files *)
  let cmd :=
    match dict_get options "config" with
    | Some (VStr config_value) =>
        let configs := map PyStr.strip (PyStr.split "," config_value) in
        fold_left (fun cmd config => cmd +++ [VStr "--config"; VStr config])
                  configs cmd
    | Some (VList config_value) =>
        fold_left (fun cmd config => cmd +++ [VStr "--config"; config])
                  config_value cmd
    | Some v => cmd +++ [VStr "--config"; VStr (py_str v)]
    | None => cmd
    end in
  (* Diagrams *)
  let cmd :=
    match dict_get options "diagrams" with
    | Some v => if truthy v then cmd +++ [VStr "--diagrams"]
                else cmd +++ [VStr "--no-diagrams"]
    | None => cmd
    end in
  Return cmd.

Definition _get_content_type (output_format : string) : string :=
  if String.eqb output_format "pdf" then "application/pdf"
  else if String.eqb output_format "text" then "text/plain"
  else if String.eqb output_format "cho" then "text/plain"
  else if String.eqb output_format "html" then "text/html"
  else "application/octet-stream".

(** The items of [cmd] as [' '.join(cmd)] needs them: a [TypeError] at the
    first item that is not a [str]. *)
Fixpoint str_items (i : Z) (cmd : list value) : result (list string) :=
  match cmd with
  | [] => Return []
  | VStr s :: rest => l <- str_items (i + 1) rest ;; Return (s :: l)
  | v :: _ =>
      Raise (Exn TypeError
               ("sequence item " ++ PyStr.of_int i
                ++ ": expected str instance, " ++ type_name v ++ " found"))
  end.

Definition input_path : string := "/tmp/input_" ++ uuid4 W ++ ".cho".
Definition output_path (output_format : string) : string :=
  "/tmp/output_" ++ uuid4 W ++ "." ++ output_format.

(** How control leaves the [try] block of [process]. *)
Inductive try_exit : Type :=
| Returned (r : string * string)
| RaisedTimeoutExpired
| RaisedCalledProcessError (returncode : Z) (stderr : string)
| RaisedException (e : exn).

Definition process_try (content output_format : string)
    (options : list (string * value)) (f : fs) : try_exit * fs * log :=
  let log0 :=
    [(INFO, "Processing ChordPro content: format=" ++ output_format
            ++ ", options=" ++ py_repr W (VDict options))] in
  (* Write input content *)
  match open_write W input_path content f with
  | OpenFailed e => (RaisedException e, f, log0)
  | WriteFailed partial e =>
      (RaisedException e, fs_write input_path partial f, log0)
  | Written =>
      let f := fs_write input_path (PyStr.encode_utf8 content) f in
      (* Build command *)
      let cmd := map VStr base_cmd
                 +++ [VStr input_path; VStr "-o";
                      VStr (output_path output_format)] in
      match _add_options cmd options with
      | Raise e => (RaisedException e, f, log0)
      | Return cmd =>
          match str_items 0 cmd with
          | Raise e => (RaisedException e, f, log0)
          | Return argv =>
              let log1 :=
                log0 +++ [(DEBUG, "Executing command: "
                                  ++ String.concat " " argv)] in
              let (f, outcome) := subprocess_run W argv f in
              match outcome with
              | TimeoutExpired => (RaisedTimeoutExpired, f, log1)
              | RunRaised e => (RaisedException e, f, log1)
              | Completed returncode stdout stderr =>
                  if negb (returncode =? 0)
                  then (RaisedCalledProcessError returncode stderr, f, log1)
                  else if negb (path_exists (output_path output_format) f)
                  then (RaisedException
                          (Exn RuntimeError
                               "ChordPro did not generate output file"),
                        f,
                        log1 +++
                        [(ERROR, "ChordPro command succeeded but output file not found: "
                                 ++ output_path output_format)])
                  else
                    let file_size := getsize (output_path output_format) f in
                    (Returned (output_path output_format,
                               _get_content_type output_format),
                     f,
                     log1 +++
                     [(INFO, "ChordPro processing completed successfully: "
                             ++ PyStr.of_int file_size ++ " bytes generated")])
              end
          end
      end
  end.

(** The [except] clauses of [process], in the order they are tried. *)
Definition process_except (x : try_exit) : result (string * string) * log :=
  match x with
  | Returned r => (Return r, [])
  | RaisedTimeoutExpired =>
      (Raise (Exn RuntimeError "ChordPro processing timed out"),
       [(ERROR, "ChordPro processing timed out after 30 seconds")])
  | RaisedCalledProcessError returncode stderr =>
      let error_msg :=
        if nonempty stderr then PyStr.strip stderr
        else "Unknown ChordPro error" in
      let error_msg :=
        if PyStr.contains input_path error_msg
        then PyStr.replace input_path "<input>" error_msg
        else error_msg in
      (Raise (Exn RuntimeError ("ChordPro processing failed: " ++ error_msg)),
       [(ERROR, "ChordPro processing failed with return code "
                ++ PyStr.of_int returncode ++ ": " ++ stderr)])
  | RaisedException e =>
      (Raise (Exn RuntimeError ("Processing failed: " ++ exn_str e)),
       [(ERROR, "Unexpected error during ChordPro processing: " ++ exn_str e)])
  end.

(** The [finally] clause of [process]. *)
Definition process_finally (f : fs) : fs * log :=
  if path_exists input_path f then
    match os_unlink W input_path f with
    | None => (fs_remove input_path f, [])
    | Some e =>
        (f, [(WARNING, "Failed to cleanup input file " ++ input_path
                       ++ ": " ++ exn_str e)])
    end
  else (f, []).

(** [options] is [None] or a dict given by its items. *)
Definition process (content output_format : string)
    (options : option (list (string * value))) (f : fs)
  : result (string * string) * fs * log :=
  if negb (existsb (String.eqb output_format) supported_outputs)
  then (Raise (Exn ValueError ("Unsupported output format: " ++ output_format)),
        f, [])
  else
    let options := match options with Some o => o | None => [] end in
    let '(x, f, log_try) := process_try content output_format options f in
    let (r, log_except) := process_except x in
    let (f, log_finally) := process_finally f in
    (r, f, log_try +++ log_except +++ log_finally).

End ChordProProcessor.

(** ** Routes *)

Inductive response : Type :=
| SendFile (body : list Z) (mimetype download_name : string)
| Jsonify (v : value).

(** [isinstance(v, int)]: [bool] is a subclass of [int]. *)
Definition is_int (v : value) : bool :=
  match v with VInt _ | VBool _ => true | _ => false end.
Definition is_bool (v : value) : bool :=
  match v with VBool _ => true | _ => false end.
Definition is_dict (v : value) : bool :=
  match v with VDict _ => true | _ => false end.
Definition is_str_or_list (v : value) : bool :=
  match v with VStr _ | VList _ => true | _ => false end.

(** The loop of [convert] over [options.items()]. *)
Fixpoint validate_options (items : list (string * value)) : result unit :=
  match items with
  | [] => Return tt
  | (key, value) :: rest =>
      if String.eqb key "transpose" && negb (is_int value)
      then Raise (Exn BadRequest "'transpose' option must be an integer")
      else if String.eqb key "meta" && negb (is_dict value)
      then Raise (Exn BadRequest "'meta' option must be an object")
      else if String.eqb key "diagrams" && negb (is_bool value)
      then Raise (Exn BadRequest "'diagrams' option must be a boolean")
      else if String.eqb key "config" && negb (is_str_or_list value)
      then Raise (Exn BadRequest "'config' option must be a string or array")
      else validate_options rest
  end.

(** The checks [convert] makes on the request body before it processes
    anything: the content, the output format and the options it goes on
    with, or the exception it raises. *)
Definition convert_validate (data : value)
  : result (string * string * list (string * value)) :=
  if negb (truthy data) then Raise (Exn BadRequest "JSON body required") else
  match data with
  | VDict items =>
      let content :=
        match dict_get items "content" with Some v => v | None => VNone end in
      if negb (truthy content)
      then Raise (Exn BadRequest "'content' field is required") else
      (* Input validation for security *)
      match content with
      | VStr content =>
          if PyStr.len content >? 1024 * 1024
          then Raise (Exn BadRequest "Content too large (max 1MB)") else
          match match dict_get items "output_format" with
                | Some v => v
                | None => VStr "pdf"
                end with
          | VStr output_format =>
              match match dict_get items "options" with
                    | Some v => v
                    | None => VDict []
                    end with
              | VDict options =>
                  (* Validate options structure *)
                  _ <- validate_options options ;;
                  Return (content, output_format, options)
              | _ => Raise (Exn BadRequest "'options' must be an object")
              end
          | _ => Raise (Exn BadRequest "'output_format' must be a string")
          end
      | _ => Raise (Exn BadRequest "'content' must be a string")
      end
  | v => Raise (Exn AttributeError
                  ("'" ++ type_name v ++ "' object has no attribute 'get'"))
  end.

Section Routes.

Context (W : world).

(** The [try] block of [convert]: what it returns or raises, the value of
    the local [output_path] when it is left, the files and the log. *)
Definition convert_try (req : request) (f : fs)
  : result response * option string * fs * log :=
  let log0 := [(INFO, "Convert request from " ++ remote_addr req)] in
  match convert_validate (get_json req) with
  | Raise e => (Raise e, None, f, log0)
  | Return (content, output_format, options) =>
      (* Process the content *)
      let '(r, f, log_process) :=
        process W content output_format (Some options) f in
      match r with
      | Raise e => (Raise e, None, f, log0 +++ log_process)
      | Return (output_path, content_type) =>
          (* Return the file *)
          match fs_read output_path f with
          | Some body =>
              (Return (SendFile body content_type
                         ("output." ++ output_format)),
               Some output_path, f,
               log0 +++ log_process +++
               [(INFO, "Convert request completed successfully: "
                       ++ output_format ++ " format")])
          | None =>
              (Raise (Exn FileNotFoundError output_path),
               Some output_path, f, log0 +++ log_process)
          end
      end
  end.

(** The [except] clauses of [convert]. *)
Definition convert_except (req : request) (r : result response)
  : result response * log :=
  match r with
  | Return resp => (Return resp, [])
  | Raise e =>
      match exn_class e with
      | BadRequest =>
          (Raise e,
           [(WARNING, "Bad request from " ++ remote_addr req
                      ++ ": 400 Bad Request: " ++ exn_str e)])
      | RuntimeError =>
          (Raise (Exn InternalServerError (exn_str e)),
           [(ERROR, "Processing error for " ++ remote_addr req
                    ++ ": " ++ exn_str e)])
      | _ =>
          (Raise (Exn InternalServerError "Processing failed"),
           [(ERROR, "Unexpected error processing request from "
                    ++ remote_addr req ++ ": " ++ exn_str e)])
      end
  end.

(** The [finally] clause of [convert]. *)
Definition convert_finally (output_path : option string) (f : fs) : fs * log :=
  match output_path with
  | Some output_path =>
      if path_exists output_path f then
        match os_unlink W output_path f with
        | None => (fs_remove output_path f, [])
        | Some e =>
            (f, [(WARNING, "Failed to cleanup output file " ++ output_path
                           ++ ": " ++ exn_str e)])
        end
      else (f, [])
  | None => (f, [])
  end.

Definition convert (req : request) (f : fs) : result response * fs * log :=
  let '(r, output_path, f, log_try) := convert_try req f in
  let (r, log_except) := convert_except req r in
  let (f, log_finally) := convert_finally output_path f in
  (r, f, log_try +++ log_except +++ log_finally).

Definition get_formats : response :=
  Jsonify (VDict [("supported_formats", VList (map VStr supported_outputs));
                  ("default_format", VStr "pdf")]).

End Routes.

(** ** Definitions used in the statements *)

(** Inverse of [PyStr.encode_utf8] on its image. *)
Fixpoint decode_utf8 (bytes : list Z) : string :=
  match bytes with
  | [] => EmptyString
  | b :: rest =>
      if b <? 128 then String (PyStr.chr b) (decode_utf8 rest)
      else match rest with
           | b2 :: rest' =>
               String (PyStr.chr ((b - 192) * 64 + (b2 - 128)))
                      (decode_utf8 rest')
           | [] => EmptyString
           end
  end.

(** [c * n]: a string of [n] copies of one character. *)
Fixpoint repeat_char (c : ascii) (n : nat) : string :=
  match n with
  | O => EmptyString
  | S n' => String c (repeat_char c n')
  end.

(** The world [W] with another [os.unlink]. *)
Definition with_unlink (W : world) (u : string -> fs -> option exn) : world :=
  World (py_repr W) (uuid4 W) (open_write W) (subprocess_run W) u.

(** The value of [DEVELOPMENT_MODE] the environment asks for. *)
Definition development_mode (environ : list (string * string)) : bool :=
  existsb (String.eqb (PyStr.lower (getenv environ "DEVELOPMENT_MODE" "")))
          ["true"; "1"; "yes"; "on"].

(** The keys of the aggregate variable: its comma-separated pieces, trimmed,
    the empty ones left out. *)
Definition aggregate_keys (environ : list (string * string)) : list string :=
  filter nonempty (map PyStr.strip (PyStr.split "," (getenv environ "API_KEYS" ""))).

(** The keys of the individually named variables: the trimmed value of each
    variable whose name starts with [API_KEY_] and whose value is not
    empty. *)
Definition individual_keys (environ : list (string * string)) : list string :=
  map (fun kv => PyStr.strip (snd kv))
      (filter (fun kv => PyStr.startswith "API_KEY_" (fst kv) && nonempty (snd kv))
              environ).

Definition merged_keys (environ : list (string * string)) : list string :=
  aggregate_keys environ +++ individual_keys environ.

(** One [--config] flag per piece. *)
Definition config_tokens (pieces : list string) : list value :=
  flat_map (fun piece => [VStr "--config"; VStr piece]) pieces.

(** A dict without one of its keys. *)
Definition without (k : string) (d : list (string * value))
  : list (string * value) :=
  filter (fun kv => negb (String.eqb (fst kv) k)) d.

(** A world for closed examples: the renderer leaves the files alone and
    exits 0 with nothing on its streams. *)
Definition quiet_world : world :=
  World (fun _ => "?") "1b9d6bcd-bbfd-4b2d-9b5d-ab8dfbbd4bed"
        (fun _ _ _ => Written)
        (fun _ f => (f, Completed 0 "" ""))
        (fun _ _ => None).

(** A renderer that exits 1 and names its input file on standard error. *)
Definition failing_world : world :=
  World (fun _ => "?") "1b9d6bcd-bbfd-4b2d-9b5d-ab8dfbbd4bed"
        (fun _ _ _ => Written)
        (fun argv f =>
           (f, Completed 1 ""
                 ("Error in " ++ nth 1 argv "" ++ ": no such directive ")))
        (fun _ _ => None).

(** A renderer that is still running when the 30 seconds are over. *)
Definition hanging_world : world :=
  World (fun _ => "?") "1b9d6bcd-bbfd-4b2d-9b5d-ab8dfbbd4bed"
        (fun _ _ _ => Written)
        (fun _ f => (f, TimeoutExpired))
        (fun _ _ => None).

(** A renderer that writes four bytes to the path after [-o] and exits
    0. *)
Definition rendering_world : world :=
  World (fun _ => "?") "1b9d6bcd-bbfd-4b2d-9b5d-ab8dfbbd4bed"
        (fun _ _ _ => Written)
        (fun argv f => (fs_write (nth 3 argv "") [37; 80; 68; 70] f,
                        Completed 0 "" ""))
        (fun _ _ => None).

(** A renderer that writes the output file and then exits 2. *)
Definition half_done_world : world :=
  World (fun _ => "?") "1b9d6bcd-bbfd-4b2d-9b5d-ab8dfbbd4bed"
        (fun _ _ _ => Written)
        (fun argv f => (fs_write (nth 3 argv "") [37; 80] f,
                        Completed 2 "" "Unknown chord: H"))
        (fun _ _ => None).

(** A temporary directory that cannot be written to. *)
Definition read_only_world : world :=
  World (fun _ => "?") "1b9d6bcd-bbfd-4b2d-9b5d-ab8dfbbd4bed"
        (fun p _ _ =>
           OpenFailed (Exn OSError
                         ("[Errno 30] Read-only file system: '" ++ p ++ "'")))
        (fun _ f => (f, Completed 0 "" ""))
        (fun _ _ => None).

(** An [os.unlink] that always raises. *)
Definition stuck_unlink (p : string) (f : fs) : option exn :=
  Some (Exn OSError ("[Errno 13] Permission denied: '" ++ p ++ "'")).

(** The flag the [diagrams] option stands for. *)
Definition diagrams_tokens (options : list (string * value)) : list value :=
  match dict_get options "diagrams" with
  | Some v => if truthy v then [VStr "--diagrams"] else [VStr "--no-diagrams"]
  | None => []
  end.

(** The flags the [config] option stands for. *)
Definition config_flags (W : world) (options : list (string * value))
  : list value :=
  match dict_get options "config" with
  | Some (VStr config_value) =>
      config_tokens (map PyStr.strip (PyStr.split "," config_value))
  | Some (VList config_value) =>
      flat_map (fun config => [VStr "--config"; config]) config_value
  | Some v => [VStr "--config"; VStr (py_str W v)]
  | None => []
  end.

(** [s.count(c)] for one character. *)
Fixpoint count_char (c : ascii) (s : string) : nat :=
  match s with
  | EmptyString => O
  | String d s' => if Ascii.eqb d c then S (count_char c s') else count_char c s'
  end.

(** [options or {}]. *)
Definition or_empty (options : option (list (string * value)))
  : list (string * value) :=
  match options with Some o => o | None => [] end.

(** The session got as far as the renderer: the input file was written, the
    command was built and joined, and [subprocess.run] left the files [f']
    and ended as [outcome]. *)
Definition renderer_ran (W : world) (content output_format : string)
    (options : option (list (string * value))) (f f' : fs)
    (outcome : run_outcome) : Prop :=
  open_write W (input_path W) content f = Written /\
  exists cmd argv,
    _add_options W
      (map VStr base_cmd
       +++ [VStr (input_path W); VStr "-o"; VStr (output_path W output_format)])
      (or_empty options) = Return cmd /\
    str_items 0 cmd = Return argv /\
    subprocess_run W argv
      (fs_write (input_path W) (PyStr.encode_utf8 content) f) = (f', outcome).

(** What [process] returns or raises, the files it leaves and what it
    logs. *)
Definition outcome_of {A : Type} (p : result A * fs * log) : result A :=
  fst (fst p).
Definition files_of {A : Type} (p : result A * fs * log) : fs := snd (fst p).
Definition log_of {A : Type} (p : result A * fs * log) : log := snd p.

(** The world [W] with another [subprocess.run]. *)
Definition with_run (W : world)
    (r : list string -> fs -> fs * run_outcome) : world :=
  World (py_repr W) (uuid4 W) (open_write W) r (os_unlink W).

(** The flag the [transpose] option stands for. *)
Definition transpose_tokens (W : world) (options : list (string * value))
  : list value :=
  match dict_get options "transpose" with
  | Some v => [VStr "--transpose"; VStr (py_str W v)]
  | None => []
  end.

(** The flags a [meta] mapping stands for, one per item in the order of the
    mapping. *)
Definition meta_tokens (W : world) (options : list (string * value))
  : list value :=
  match dict_get options "meta" with
  | Some (VDict items) =>
      flat_map (fun kv => [VStr "--meta";
                           VStr (fst kv ++ "=" ++ py_str W (snd kv))])
               items
  | _ => []
  end.

(** The type [convert] asks of one item of [options]; a key it does not
    know is left alone. *)
Definition option_well_typed (kv : string * value) : Prop :=
  (fst kv = "transpose" -> is_int (snd kv) = true) /\
  (fst kv = "meta" -> is_dict (snd kv) = true) /\
  (fst kv = "diagrams" -> is_bool (snd kv) = true) /\
  (fst kv = "config" -> is_str_or_list (snd kv) = true).

(** The route [/convert]: [convert] behind [require_api_key].  When the
    guard raises, the handler is not called and the files stay as they
    are. *)
Definition convert_route (W : world) (VALID_API_KEYS : list string)
    (DEVELOPMENT_MODE : bool) (req : request) (f : fs)
  : result response * fs * log :=
  match require_api_key (convert W req f) VALID_API_KEYS DEVELOPMENT_MODE req with
  | (Return handled, log_guard) =>
      (outcome_of handled, files_of handled, log_guard +++ log_of handled)
  | (Raise e, log_guard) => (Raise e, f, log_guard)
  end.

(** [status[k] = v] on a dict given by its items. *)
Fixpoint dict_set (k : string) (v : value) (d : list (string * value))
  : list (string * value) :=
  match d with
  | [] => [(k, v)]
  | kv :: d' => if String.eqb (fst kv) k then (k, v) :: d'
                else kv :: dict_set k v d'
  end.

(** The route [/health].  [timestamp] is the text [formatTime] gives for
    the time of the call; the version check is run on the files [f]. *)
Definition health (W : world) (timestamp : string) (f : fs) : response :=
  let status := [("status", VStr "healthy");
                 ("service", VStr "chordpro-api");
                 ("timestamp", VStr timestamp)] in
  let degraded :=
    dict_set "status" (VStr "degraded")
             (dict_set "chordpro_available" (VBool false) status) in
  (* Basic ChordPro availability check *)
  match snd (subprocess_run W ["chordpro"; "--version"] f) with
  | Completed returncode _ _ =>
      if returncode =? 0
      then Jsonify (VDict (dict_set "chordpro_available" (VBool true) status))
      else Jsonify (VDict degraded)
  | _ => Jsonify (VDict degraded)
  end.

(** The warning [load_api_keys] logs about keys shorter than 16
    characters. *)
Definition weak_key_warning (keys : list string) : log :=
  match filter (fun key => PyStr.len key <? 16) keys with
  | [] => []
  | _ :: _ =>
      [(WARNING, "Found "
                 ++ count (filter (fun key => PyStr.len key <? 16) keys)
                 ++ " API keys shorter than 16 characters - consider using stronger keys")]
  end.

(** Log entries that are not that warning: their text starts otherwise. *)
Definition no_weak_key_warning (l : log) : Prop :=
  Forall (fun entry => PyStr.startswith "Found " (snd entry) = false) l.

(** * Properties *)

(** ** Constant-time comparison *)

Lemma tscmp_loop_zero (l r : list Z) :
  forall acc, List.length l = List.length r ->
    (tscmp_loop l r acc = 0 <-> acc = 0 /\ l = r).
Proof.
  unfold tscmp_loop. revert r.
  induction l as [|x l IH]; intros [|y r] acc Hlen; simpl in *; try discriminate.
  - split; [intro H; split; [exact H | reflexivity] | intros [H _]; exact H].
  - injection Hlen as Hlen. rewrite (IH r _ Hlen).
    rewrite Z.lor_eq_0_iff, Z.lxor_eq_0_iff. split.
    + intros [[Ha Hxy] Hlr]. subst. auto.
    + intros [Ha Heq]. injection Heq as -> ->. auto.
Qed.

Lemma tscmp_loop_sticky (l r : list Z) :
  forall acc, acc <> 0 -> tscmp_loop l r acc <> 0.
Proof.
  unfold tscmp_loop. revert r.
  induction l as [|x l IH]; intros [|y r] acc Hacc; simpl; auto.
  apply IH. rewrite Z.lor_eq_0_iff. tauto.
Qed.

Lemma compare_digest_eq (a b : list Z) : compare_digest a b = true <-> a = b.
Proof.
  unfold compare_digest.
  destruct (Nat.eqb (List.length a) (List.length b)) eqn:Hlen.
  - apply Nat.eqb_eq in Hlen. rewrite Z.eqb_eq, (tscmp_loop_zero a b 0 Hlen).
    tauto.
  - apply Nat.eqb_neq in Hlen. split.
    + rewrite Z.eqb_eq. intro H. exfalso.
      apply (tscmp_loop_sticky b b 1); [discriminate | exact H].
    + intros ->. contradiction.
Qed.

Lemma decode_encode_char (c : ascii) (rest : list Z) :
  decode_utf8 (PyStr.encode_char c +++ rest) = String c (decode_utf8 rest).
Proof.
  destruct c as [[|] [|] [|] [|] [|] [|] [|] [|]]; reflexivity.
Qed.

Lemma decode_encode_utf8 (s : string) : decode_utf8 (PyStr.encode_utf8 s) = s.
Proof.
  induction s as [|c s IH]; simpl.
  - reflexivity.
  - rewrite decode_encode_char, IH. reflexivity.
Qed.

Lemma encode_utf8_inj (s t : string) :
  PyStr.encode_utf8 s = PyStr.encode_utf8 t -> s = t.
Proof.
  intro H. rewrite <- (decode_encode_utf8 s), <- (decode_encode_utf8 t), H.
  reflexivity.
Qed.

Lemma secure_compare_api_key_eq (p v : string) :
  secure_compare_api_key (VStr p) (VStr v) = true <-> p = v.
Proof.
  simpl. rewrite compare_digest_eq. split.
  - apply encode_utf8_inj.
  - intros ->. reflexivity.
Qed.

Lemma secure_compare_api_key_not_str (p : value) (v : string) :
  is_str p = false -> secure_compare_api_key p (VStr v) = false.
Proof. destruct p; simpl; intro H; try reflexivity; discriminate. Qed.

(** ** CredentialStore: [is_valid_api_key] *)

Lemma is_valid_loop_not_str (p : value) (keys : list string) :
  is_str p = false -> is_valid_loop p keys = (false, keys).
Proof.
  intro Hp. induction keys as [|k keys IH]; simpl.
  - reflexivity.
  - rewrite (secure_compare_api_key_not_str p k Hp), IH. reflexivity.
Qed.

Lemma is_valid_loop_absent (c : string) (keys : list string) :
  ~ In c keys -> is_valid_loop (VStr c) keys = (false, keys).
Proof.
  induction keys as [|k keys IH]; intro Hnot.
  - reflexivity.
  - cbn [is_valid_loop].
    destruct (secure_compare_api_key (VStr c) (VStr k)) eqn:Hcmp.
    + apply secure_compare_api_key_eq in Hcmp. subst k.
      exfalso. apply Hnot. left. reflexivity.
    + rewrite IH; [reflexivity|]. intro Hin. apply Hnot. right. exact Hin.
Qed.

Lemma is_valid_loop_present (c : string) (keys : list string) :
  In c keys ->
  exists pre post,
    keys = pre +++ c :: post /\ ~ In c pre /\
    is_valid_loop (VStr c) keys = (true, pre +++ [c]).
Proof.
  induction keys as [|k keys IH]; intro Hin.
  - destruct Hin.
  - cbn [is_valid_loop].
    destruct (secure_compare_api_key (VStr c) (VStr k)) eqn:Hcmp.
    + apply secure_compare_api_key_eq in Hcmp. subst k.
      exists [], keys. repeat split. intros [].
    + assert (Hck : c <> k).
      { intro Heq. apply secure_compare_api_key_eq in Heq.
        rewrite Heq in Hcmp. discriminate. }
      destruct Hin as [Heq | Hin]; [symmetry in Heq; contradiction|].
      destruct (IH Hin) as (pre & post & Hkeys & Hpre & Hloop).
      exists (k :: pre), post. rewrite Hloop. repeat split.
      * simpl. rewrite Hkeys. reflexivity.
      * intros [Heq | Hin']; [symmetry in Heq|]; contradiction.
Qed.

Lemma truthy_str (c : string) : c <> "" -> truthy (VStr c) = true.
Proof.
  intro Hc. simpl. destruct (String.eqb c "") eqn:E; [|reflexivity].
  apply String.eqb_eq in E. contradiction.
Qed.

(** C1 (as the code has it).  A candidate that is not a string, or is the
    empty string, is refused.  A non-empty string is handed to the
    constant-time comparison with the stored keys one after the other in
    iteration order; a mismatch never ends the loop and the first match
    does, so the keys compared are all the keys when none matches and the
    keys up to the first match otherwise.  The answer is true exactly when
    the candidate equals a stored key. *)
Theorem is_valid_api_key_until_first_match
    (VALID_API_KEYS : list string) (candidate : value) :
  (is_str candidate = false \/ candidate = VStr "" ->
   is_valid_api_key VALID_API_KEYS candidate = false) /\
  (forall c, candidate = VStr c -> c <> "" ->
     (is_valid_api_key VALID_API_KEYS candidate = true
      <-> In c VALID_API_KEYS) /\
     (~ In c VALID_API_KEYS ->
      snd (is_valid_api_key_calls VALID_API_KEYS candidate) = VALID_API_KEYS) /\
     (In c VALID_API_KEYS ->
      exists pre post,
        VALID_API_KEYS = pre +++ c :: post /\ ~ In c pre /\
        snd (is_valid_api_key_calls VALID_API_KEYS candidate) = pre +++ [c])).
Proof.
  split.
  - intros [Hns | ->].
    + unfold is_valid_api_key, is_valid_api_key_calls.
      destruct (truthy candidate); [|reflexivity]. simpl.
      rewrite (is_valid_loop_not_str _ _ Hns). reflexivity.
    + reflexivity.
  - intros c -> Hc.
    unfold is_valid_api_key, is_valid_api_key_calls.
    rewrite (truthy_str c Hc). simpl negb. cbv iota.
    assert (Hdec : In c VALID_API_KEYS \/ ~ In c VALID_API_KEYS).
    { destruct (in_dec string_dec c VALID_API_KEYS); auto. }
    split; [|split].
    + destruct Hdec as [Hin | Hnot].
      * destruct (is_valid_loop_present c _ Hin) as (pre & post & _ & _ & ->).
        simpl. tauto.
      * rewrite (is_valid_loop_absent c _ Hnot). simpl.
        split; [discriminate | contradiction].
    + intro Hnot. rewrite (is_valid_loop_absent c _ Hnot). reflexivity.
    + intro Hin.
      destruct (is_valid_loop_present c _ Hin) as (pre & post & Hk & Hp & Hl).
      exists pre, post. rewrite Hl. auto.
Qed.

Lemma is_valid_api_key_until_first_match_witness :
  is_valid_api_key ["alpha-key"; "beta-key"] (VStr "beta-key") = true.
Proof.
  apply (proj2 (is_valid_api_key_until_first_match
                  ["alpha-key"; "beta-key"] (VStr "beta-key"))
               "beta-key" eq_refl).
  - discriminate.
  - simpl. auto.
Defined.

(** C1 as stated fails: with two stored keys and a candidate equal to the
    first, the loop returns at the match and the second stored key is never
    compared. *)
Lemma is_valid_api_key_stops_at_match :
  snd (is_valid_api_key_calls ["alpha-key"; "beta-key"] (VStr "alpha-key"))
  = ["alpha-key"]
  /\ snd (is_valid_api_key_calls ["alpha-key"; "beta-key"] (VStr "alpha-key"))
     <> ["alpha-key"; "beta-key"].
Proof. split; [reflexivity | discriminate]. Qed.

(** ** RequestGuard: [require_api_key] *)

Lemma existsb_eqb_In (x : string) (l : list string) :
  existsb (String.eqb x) l = true <-> In x l.
Proof.
  rewrite existsb_exists. split.
  - intros (y & Hin & Heq). apply String.eqb_eq in Heq. subst. exact Hin.
  - intro Hin. exists x. split; [exact Hin | apply String.eqb_refl].
Qed.

Lemma existsb_eqb_not_In (x : string) (l : list string) :
  existsb (String.eqb x) l = false <-> ~ In x l.
Proof.
  rewrite <- existsb_eqb_In. destruct (existsb (String.eqb x) l); split;
    intro H; try reflexivity; try discriminate; try (exfalso; auto).
Qed.

(** C8.  The health check and the index are let through; so is every
    request in development mode, with or without a key.  Otherwise the
    handler is called exactly when the request carries a non-empty key that
    [is_valid_api_key] accepts, and every other request gets the same
    [Unauthorized] error, whose text is fixed and so holds nothing of the
    stored keys or of the key supplied. *)
Theorem require_api_key_policy {A : Type} (f : A)
    (VALID_API_KEYS : list string) (DEVELOPMENT_MODE : bool) (req : request) :
  let guarded := require_api_key f VALID_API_KEYS DEVELOPMENT_MODE req in
  let has_valid_key :=
    exists k, x_api_key req = Some k /\ k <> "" /\
              is_valid_api_key VALID_API_KEYS (VStr k) = true in
  (In (endpoint req) ["health"; "index"] -> guarded = (Return f, [])) /\
  (DEVELOPMENT_MODE = true -> guarded = (Return f, [])) /\
  (~ In (endpoint req) ["health"; "index"] -> DEVELOPMENT_MODE = false ->
   (has_valid_key -> guarded = (Return f, [])) /\
   (~ has_valid_key ->
    guarded =
      (Raise (Exn Unauthorized
                "Valid API key required. Include 'X-API-Key' header."),
       [(WARNING, "Unauthorized access attempt from " ++ remote_addr req
                  ++ " to " ++ endpoint req)]))).
Proof.
  cbv zeta. unfold require_api_key. split; [|split].
  - intro Hin. apply existsb_eqb_In in Hin. rewrite Hin. reflexivity.
  - intros ->. destruct (existsb _ _); reflexivity.
  - intros Hnot ->. apply existsb_eqb_not_In in Hnot. rewrite Hnot. split.
    + intros (k & Hk & Hne & Hvalid). rewrite Hk. cbn [header_value].
      rewrite (truthy_str k Hne), Hvalid. reflexivity.
    + intro Hnone. destruct (x_api_key req) as [k|] eqn:Hk; cbn [header_value].
      * destruct (String.eqb k "") eqn:Hempty.
        { apply String.eqb_eq in Hempty. subst k. reflexivity. }
        apply String.eqb_neq in Hempty. rewrite (truthy_str k Hempty).
        destruct (is_valid_api_key VALID_API_KEYS (VStr k)) eqn:Hvalid.
        { exfalso. apply Hnone. exists k. auto. }
        reflexivity.
      * reflexivity.
Qed.

Lemma require_api_key_policy_witness :
  require_api_key tt ["alpha-key"] true (Request "convert" "10.0.0.7" None VNone)
  = (Return tt, [])
  /\ require_api_key tt ["alpha-key"] false
       (Request "convert" "10.0.0.7" (Some "alpha-key") VNone)
     = (Return tt, []).
Proof.
  split.
  - apply (proj1 (proj2 (require_api_key_policy tt ["alpha-key"] true
                           (Request "convert" "10.0.0.7" None VNone)))).
    reflexivity.
  - apply (proj2 (proj2 (require_api_key_policy tt ["alpha-key"] false
                           (Request "convert" "10.0.0.7" (Some "alpha-key") VNone)))).
    + simpl. intros [H | [H | []]]; discriminate.
    + reflexivity.
    + exists "alpha-key". repeat split. discriminate.
Defined.

(** ** AccessPolicy: [load_api_keys] *)

Lemma set_add_In (x k : string) (s : list string) :
  In k (set_add x s) <-> k = x \/ In k s.
Proof.
  unfold set_add. destruct (existsb (String.eqb x) s) eqn:E.
  - apply existsb_eqb_In in E. split; [auto|]. intros [-> | H]; assumption.
  - rewrite in_app_iff. simpl. split.
    + intros [H | [H | []]]; auto.
    + intros [-> | H]; auto.
Qed.

Lemma set_add_NoDup (x : string) (s : list string) :
  NoDup s -> NoDup (set_add x s).
Proof.
  intro Hs. unfold set_add. destruct (existsb (String.eqb x) s) eqn:E.
  - exact Hs.
  - apply existsb_eqb_not_In in E. induction Hs as [|y s Hy Hs IH]; simpl.
    + constructor; [intros [] | constructor].
    + constructor.
      * rewrite in_app_iff. simpl. intros [H | [H | []]]; [contradiction|].
        subst y. apply E. left. reflexivity.
      * apply IH. intro H. apply E. right. exact H.
Qed.

Lemma set_update_spec (xs : list string) :
  forall s, NoDup s ->
    NoDup (set_update s xs) /\
    forall k, In k (set_update s xs) <-> In k s \/ In k xs.
Proof.
  unfold set_update. induction xs as [|x xs IH]; intros s Hs; simpl.
  - split; [exact Hs|]. intro k. tauto.
  - destruct (IH (set_add x s) (set_add_NoDup x s Hs)) as [Hnd Hin].
    split; [exact Hnd|]. intro k. rewrite Hin, set_add_In. intuition.
Qed.

Lemma individual_keys_fold (environ : list (string * string)) :
  forall keys n, NoDup keys ->
    let acc :=
      fold_left
        (fun acc kv =>
           if PyStr.startswith "API_KEY_" (fst kv) && nonempty (snd kv)
           then (set_add (PyStr.strip (snd kv)) (fst acc), snd acc + 1)
           else acc)
        environ (keys, n) in
    NoDup (fst acc) /\
    forall k, In k (fst acc) <-> In k keys \/ In k (individual_keys environ).
Proof.
  unfold individual_keys.
  induction environ as [|kv environ IH]; intros keys n Hnd; cbn zeta.
  - simpl. split; [exact Hnd|]. intro k. tauto.
  - cbn [fold_left filter].
    destruct (PyStr.startswith "API_KEY_" (fst kv) && nonempty (snd kv)).
    + cbn [fst snd map].
      destruct (IH (set_add (PyStr.strip (snd kv)) keys) (n + 1)
                   (set_add_NoDup _ _ Hnd)) as [H1 H2].
      split; [exact H1|]. intro k. rewrite (H2 k), set_add_In. simpl.
      intuition.
    + apply IH. exact Hnd.
Qed.

Lemma aggregate_keys_unset (environ : list (string * string)) :
  nonempty (getenv environ "API_KEYS" "") = false -> aggregate_keys environ = [].
Proof.
  unfold nonempty, aggregate_keys. intro H.
  destruct (String.eqb (getenv environ "API_KEYS" "") "") eqn:E;
    [|discriminate].
  apply String.eqb_eq in E. rewrite E. reflexivity.
Qed.

(** The two globals after [load_api_keys]: the merged keys without
    duplicates and the flag, unless there is neither key nor flag. *)
Lemma load_api_keys_state (environ : list (string * string)) :
  exists keys,
    NoDup keys /\
    (forall k, In k keys <-> In k (merged_keys environ)) /\
    fst (load_api_keys environ) =
      match keys, development_mode environ with
      | [], false => Exited 1
      | _, d => Serving keys d
      end.
Proof.
  unfold load_api_keys, development_mode, merged_keys.
  set (dev := existsb _ _).
  destruct (nonempty (getenv environ "API_KEYS" "")) eqn:Hagg.
  - fold (aggregate_keys environ).
    destruct (set_update_spec (aggregate_keys environ) [] (NoDup_nil _))
      as [Hnd0 Hin0].
    pose proof (individual_keys_fold environ
                  (set_update [] (aggregate_keys environ)) 0 Hnd0) as Hfold.
    cbn zeta in Hfold. destruct (fold_left _ environ _) as [keys n].
    cbn [fst] in Hfold. destruct Hfold as [Hnd Hin].
    exists keys. split; [exact Hnd|]. split.
    + intro k. rewrite (Hin k), (Hin0 k), in_app_iff. simpl. tauto.
    + destruct keys, dev; reflexivity.
  - rewrite (aggregate_keys_unset environ Hagg).
    pose proof (individual_keys_fold environ [] 0 (NoDup_nil _)) as Hfold.
    cbn zeta in Hfold. destruct (fold_left _ environ _) as [keys n].
    cbn [fst] in Hfold. destruct Hfold as [Hnd Hin].
    exists keys. split; [exact Hnd|]. split.
    + intro k. rewrite (Hin k). simpl. tauto.
    + destruct keys, dev; reflexivity.
Qed.

(** C7.  When the aggregate variable and the individually named variables
    give no key at all and development mode is off, [load_api_keys] ends the
    process with [sys.exit(1)].  When there is a key, or development mode is
    on, it returns, leaving in [VALID_API_KEYS] the merged keys, each once,
    and in [DEVELOPMENT_MODE] the flag. *)
Theorem load_api_keys_refuses_without_keys (environ : list (string * string)) :
  (merged_keys environ = [] /\ development_mode environ = false ->
   fst (load_api_keys environ) = Exited 1) /\
  (merged_keys environ <> [] \/ development_mode environ = true ->
   exists keys,
     fst (load_api_keys environ) = Serving keys (development_mode environ) /\
     NoDup keys /\
     forall k, In k keys <-> In k (merged_keys environ)).
Proof.
  destruct (load_api_keys_state environ) as (keys & Hnd & Hin & Hload).
  split.
  - intros [Hnone Hdev]. rewrite Hload, Hdev.
    destruct keys as [|k keys]; [reflexivity|].
    exfalso. rewrite Hnone in Hin. apply (Hin k). left. reflexivity.
  - intro Hsome. exists keys. split; [|split; assumption].
    rewrite Hload. destruct keys as [|k keys].
    + destruct Hsome as [Hne | ->]; [|reflexivity].
      exfalso. destruct (merged_keys environ) as [|m ms]; [apply Hne; reflexivity|].
      apply (Hin m). left. reflexivity.
    + destruct (development_mode environ); reflexivity.
Qed.

Lemma load_api_keys_refuses_without_keys_witness :
  fst (load_api_keys [("PATH", "/usr/bin"); ("DEVELOPMENT_MODE", "false")])
  = Exited 1
  /\ exists keys,
       fst (load_api_keys [("API_KEYS", "alpha-key, beta-key"); ("API_KEY_1", "alpha-key")])
       = Serving keys false /\
       NoDup keys /\
       forall k, In k keys <-> In k ["alpha-key"; "beta-key"; "alpha-key"].
Proof.
  split.
  - apply (proj1 (load_api_keys_refuses_without_keys
                    [("PATH", "/usr/bin"); ("DEVELOPMENT_MODE", "false")])).
    split; reflexivity.
  - apply (proj2 (load_api_keys_refuses_without_keys
                    [("API_KEYS", "alpha-key, beta-key"); ("API_KEY_1", "alpha-key")])).
    left. discriminate.
Defined.

(** ** ArgumentBuilder: [_add_options] *)

Lemma dict_get_cons (kv : string * value) (d : list (string * value)) (k : string) :
  dict_get (kv :: d) k =
  if String.eqb (fst kv) k then Some (snd kv) else dict_get d k.
Proof. unfold dict_get. simpl. destruct (String.eqb (fst kv) k); reflexivity. Qed.

Lemma dict_get_without_same (k : string) (d : list (string * value)) :
  dict_get (without k d) k = None.
Proof.
  induction d as [|kv d IH]; [reflexivity|]. unfold without in *. simpl.
  destruct (String.eqb (fst kv) k) eqn:E; simpl.
  - exact IH.
  - rewrite dict_get_cons, E. exact IH.
Qed.

Lemma dict_get_without_other (k k' : string) (d : list (string * value)) :
  k <> k' -> dict_get (without k d) k' = dict_get d k'.
Proof.
  intro Hne. induction d as [|kv d IH]; [reflexivity|]. unfold without in *.
  simpl. rewrite dict_get_cons.
  destruct (String.eqb (fst kv) k) eqn:E; simpl.
  - apply String.eqb_eq in E.
    destruct (String.eqb (fst kv) k') eqn:E'.
    + apply String.eqb_eq in E'. congruence.
    + exact IH.
  - rewrite dict_get_cons. destruct (String.eqb (fst kv) k'); [reflexivity|].
    exact IH.
Qed.

Lemma fold_left_extend {A : Type} (g : A -> list value) (l : list A) :
  forall cmd, fold_left (fun cmd x => cmd +++ g x) l cmd = cmd +++ flat_map g l.
Proof.
  induction l as [|x l IH]; intro cmd; simpl.
  - rewrite app_nil_r. reflexivity.
  - rewrite IH, <- app_assoc. reflexivity.
Qed.

(** The shape of the builder's answer when [meta] is absent or a dict:
    the tokens built from the command so far, [transpose] and [meta], then
    the [--config] flags, then the diagrams flag. *)
Lemma add_options_shape
    (W : world) (cmd : list value) (options : list (string * value)) :
  (forall v, dict_get options "meta" = Some v -> is_dict v = true) ->
  exists pre,
    _add_options W cmd (without "diagrams" (without "config" options))
    = Return pre /\
    _add_options W cmd options =
    Return (pre +++ config_flags W options +++ diagrams_tokens options).
Proof.
  intro Hmeta. unfold _add_options, config_flags, diagrams_tokens, config_tokens.
  rewrite dict_get_without_same.
  rewrite !(dict_get_without_other "diagrams") by discriminate.
  rewrite dict_get_without_same.
  rewrite !(dict_get_without_other "config") by discriminate.
  assert (Hmeta' : dict_get options "meta" = None \/
                   exists items, dict_get options "meta" = Some (VDict items)).
  { destruct (dict_get options "meta") as [m|]; [right | left; reflexivity].
    specialize (Hmeta m eq_refl). destruct m; try discriminate. eauto. }
  destruct Hmeta' as [-> | [items ->]]; cbn [bind]; cbv zeta;
    (eexists; split; [reflexivity|]); f_equal;
    destruct (dict_get options "config") as [[| | | | s | l |]|];
    destruct (dict_get options "diagrams") as [dg|];
    try destruct (truthy dg);
    rewrite ?fold_left_extend, ?app_nil_r, <- ?app_assoc; reflexivity.
Qed.

Lemma split_length (sep : ascii) (s : string) :
  List.length (PyStr.split sep s) = S (count_char sep s).
Proof.
  induction s as [|c s IH]; [reflexivity|]. simpl.
  destruct (Ascii.eqb c sep).
  - simpl. rewrite IH. reflexivity.
  - destruct (PyStr.split sep s); simpl in *; [discriminate | exact IH].
Qed.

Lemma config_tokens_length (pieces : list string) :
  List.length (config_tokens pieces) = (2 * List.length pieces)%nat.
Proof.
  induction pieces as [|p ps IH]; [reflexivity|].
  unfold config_tokens in *. simpl. rewrite IH. lia.
Qed.

(** C4 (as the code has it).  When [config] is a string, the builder splits
    it on commas, trims each piece, and puts one [--config <piece>] pair per
    piece, empty pieces too, in left-to-right order, after the tokens of
    [transpose] and [meta] and before the diagrams flag: a string with [n]
    commas gives [n + 1] pairs. *)
Theorem add_options_config_string
    (W : world) (cmd : list value) (options : list (string * value))
    (config_value : string) :
  dict_get options "config" = Some (VStr config_value) ->
  (forall v, dict_get options "meta" = Some v -> is_dict v = true) ->
  let pieces := map PyStr.strip (PyStr.split "," config_value) in
  List.length (config_tokens pieces)
  = (2 * S (count_char "," config_value))%nat /\
  exists pre,
    _add_options W cmd (without "diagrams" (without "config" options))
    = Return pre /\
    _add_options W cmd options
    = Return (pre +++ config_tokens pieces +++ diagrams_tokens options).
Proof.
  intros Hconfig Hmeta pieces. split.
  - unfold pieces. rewrite config_tokens_length, length_map, split_length.
    reflexivity.
  - destruct (add_options_shape W cmd options Hmeta) as (pre & Hpre & Hall).
    exists pre. split; [exact Hpre|]. rewrite Hall.
    unfold config_flags. rewrite Hconfig. reflexivity.
Qed.

Lemma add_options_config_string_witness :
  exists pre,
    _add_options quiet_world [VStr "chordpro"] [("transpose", VInt 2)] = Return pre /\
    _add_options quiet_world [VStr "chordpro"]
      [("transpose", VInt 2); ("config", VStr "ukulele, modern3")]
    = Return (pre +++ [VStr "--config"; VStr "ukulele";
                       VStr "--config"; VStr "modern3"] +++ []).
Proof.
  apply (proj2 (add_options_config_string quiet_world [VStr "chordpro"]
                  [("transpose", VInt 2); ("config", VStr "ukulele, modern3")]
                  "ukulele, modern3" eq_refl
                  (fun v H => ltac:(discriminate H)))).
Defined.

(** C4 as stated fails: the empty piece between two consecutive commas gets
    a [--config] flag of its own, with the empty string as its value. *)
Lemma add_options_config_empty_piece :
  _add_options quiet_world [] [("config", VStr "ukulele,,modern3")]
  = Return [VStr "--config"; VStr "ukulele"; VStr "--config"; VStr "";
            VStr "--config"; VStr "modern3"]
  /\ _add_options quiet_world [] [("config", VStr "ukulele,,modern3")]
     <> Return [VStr "--config"; VStr "ukulele"; VStr "--config"; VStr "modern3"].
Proof. split; [reflexivity | discriminate]. Qed.

Lemma validate_options_meta (options : list (string * value)) :
  validate_options options = Return tt ->
  forall v, dict_get options "meta" = Some v -> is_dict v = true.
Proof.
  induction options as [|[key value] options IH]; intros Hok v Hget.
  - discriminate.
  - rewrite dict_get_cons in Hget. cbn [fst snd] in Hget.
    cbn [validate_options] in Hok.
    destruct (String.eqb key "meta") eqn:Hkey.
    + apply String.eqb_eq in Hkey. subst key. injection Hget as <-.
      cbn in Hok. destruct (is_dict value); [reflexivity | discriminate].
    + destruct (String.eqb key "transpose" && negb (is_int value));
        [discriminate|].
      cbn [andb] in Hok.
      destruct (String.eqb key "diagrams" && negb (is_bool value));
        [discriminate|].
      destruct (String.eqb key "config" && negb (is_str_or_list value));
        [discriminate|].
      exact (IH Hok v Hget).
Qed.

(** C6 (as the code has it).  Whatever the other options hold, the builder
    returns a token list whenever [meta] is absent or is a mapping; that is
    the case for every options object [convert] has validated.  When [meta]
    is present and is not a mapping, the builder raises an
    [AttributeError]. *)
Theorem add_options_returns_when_meta_is_mapping
    (W : world) (cmd : list value) (options : list (string * value)) :
  ((forall v, dict_get options "meta" = Some v -> is_dict v = true) ->
   exists tokens, _add_options W cmd options = Return tokens) /\
  (validate_options options = Return tt ->
   exists tokens, _add_options W cmd options = Return tokens) /\
  (forall v, dict_get options "meta" = Some v -> is_dict v = false ->
   _add_options W cmd options
   = Raise (Exn AttributeError
              ("'" ++ type_name v ++ "' object has no attribute 'items'"))).
Proof.
  assert (Hret : (forall v, dict_get options "meta" = Some v -> is_dict v = true) ->
                 exists tokens, _add_options W cmd options = Return tokens).
  { intro Hmeta. destruct (add_options_shape W cmd options Hmeta) as (pre & _ & H).
    eexists. exact H. }
  split; [exact Hret | split].
  - intro Hok. apply Hret. apply validate_options_meta. exact Hok.
  - intros v Hget Hv. unfold _add_options. rewrite Hget.
    destruct v; try discriminate; reflexivity.
Qed.

Lemma add_options_returns_when_meta_is_mapping_witness :
  exists tokens,
    _add_options quiet_world [VStr "chordpro"]
      [("meta", VDict [("title", VInt 7)]); ("config", VList [VInt 1; VNone])]
    = Return tokens.
Proof.
  apply (proj1 (proj2 (add_options_returns_when_meta_is_mapping quiet_world
                         [VStr "chordpro"]
                         [("meta", VDict [("title", VInt 7)]);
                          ("config", VList [VInt 1; VNone])]))).
  reflexivity.
Defined.

(** C6 as stated fails: with a [meta] that is a string the builder raises
    an [AttributeError] of its own. *)
Lemma add_options_meta_string_raises :
  _add_options quiet_world [] [("meta", VStr "title=X")]
  = Raise (Exn AttributeError "'str' object has no attribute 'items'").
Proof. reflexivity. Qed.

(** ** [str.replace] leaves no occurrence behind *)

Section Replace.

(** [old] starts with [a] and [new] with [x]; [x] does not occur in [old]
    and [a] does not occur in [new]. *)
Variables (a x : ascii) (old' new' : string).
Let old := String a old'.
Let new := String x new'.
Hypothesis x_not_in_old : PyStr.has_char x old = false.
Hypothesis a_not_in_new : PyStr.has_char a new = false.

Lemma startswith_replace_from (s : string) :
  forall t, PyStr.has_char x t = false ->
    PyStr.startswith t (PyStr.replace_from old new 0 s) = true ->
    PyStr.startswith t s = true.
Proof.
  induction s as [|c s IH]; intros t Ht Hstart.
  - exact Hstart.
  - destruct t as [|d t]; [reflexivity|].
    cbn [PyStr.has_char] in Ht. apply orb_false_iff in Ht. destruct Ht as [Hxd Ht].
    cbn [PyStr.replace_from] in Hstart.
    destruct (PyStr.startswith old (String c s)).
    + unfold new in Hstart. cbn in Hstart.
      apply andb_true_iff in Hstart. destruct Hstart as [Hdx _].
      rewrite Ascii.eqb_sym in Hdx. congruence.
    + cbn [PyStr.startswith] in *. apply andb_true_iff in Hstart.
      destruct Hstart as [Hdc Hrest]. rewrite Hdc. cbn. exact (IH t Ht Hrest).
Qed.

Lemma startswith_old_replace_from (s : string) :
  forall skip, PyStr.startswith old (PyStr.replace_from old new skip s) = false.
Proof.
  induction s as [|c s IH]; intro skip.
  - reflexivity.
  - destruct skip as [|skip]; [|apply IH].
    destruct (PyStr.startswith old (PyStr.replace_from old new 0 (String c s)))
      eqn:Hstart; [|reflexivity].
    pose proof (startswith_replace_from (String c s) old x_not_in_old Hstart)
      as Horig.
    cbn [PyStr.replace_from] in Hstart. rewrite Horig in Hstart.
    unfold new, old in Hstart. cbn in Hstart.
    apply andb_true_iff in Hstart. destruct Hstart as [Hax _].
    pose proof x_not_in_old as Hx. unfold old in Hx. cbn in Hx.
    apply orb_false_iff in Hx. destruct Hx as [Hxa _].
    rewrite Ascii.eqb_sym in Hax. congruence.
Qed.

Lemma contains_old_after (w s : string) :
  PyStr.has_char a w = false ->
  PyStr.contains old (w ++ s) = PyStr.contains old s.
Proof.
  induction w as [|d w IH]; intro Hw; [reflexivity|].
  cbn [PyStr.has_char] in Hw. apply orb_false_iff in Hw. destruct Hw as [Had Hw].
  cbn [append PyStr.contains]. unfold old at 1. cbn [PyStr.startswith].
  rewrite Had. cbn. exact (IH Hw).
Qed.

Lemma contains_old_replace_from (s : string) :
  forall skip, PyStr.contains old (PyStr.replace_from old new skip s) = false.
Proof.
  induction s as [|c s IH]; intro skip.
  - reflexivity.
  - destruct skip as [|skip]; [|apply IH].
    pose proof (startswith_old_replace_from (String c s) 0) as Hhead.
    cbn [PyStr.replace_from] in *.
    destruct (PyStr.startswith old (String c s)).
    + rewrite (contains_old_after new _ a_not_in_new). apply IH.
    + cbn [PyStr.contains]. rewrite Hhead. cbn. apply IH.
Qed.

Lemma contains_old_replace (s : string) :
  PyStr.contains old (PyStr.replace old new s) = false.
Proof. apply contains_old_replace_from. Qed.

End Replace.


Lemma replace_from_absent (old new s : string) :
  PyStr.contains old s = false -> PyStr.replace_from old new 0 s = s.
Proof.
  induction s as [|c s IH]; intro Hno; [reflexivity|].
  cbn [PyStr.contains] in Hno. apply orb_false_iff in Hno.
  destruct Hno as [Hhead Htail].
  cbn [PyStr.replace_from]. rewrite Hhead, (IH Htail). reflexivity.
Qed.

Lemma uuid_text_no_angle (u rest : string) :
  uuid_text u = true ->
  PyStr.has_char "<" (u ++ rest) = PyStr.has_char "<" rest.
Proof.
  induction u as [|c u IH]; intro Hu; [reflexivity|].
  cbn [uuid_text] in Hu. apply andb_true_iff in Hu. destruct Hu as [Hc Hu].
  cbn [append PyStr.has_char]. rewrite (IH Hu).
  destruct (Ascii.eqb "<" c) eqn:E; [|reflexivity].
  apply Ascii.eqb_eq in E. subst c. discriminate Hc.
Qed.

Lemma input_path_no_angle (W : world) :
  uuid_text (uuid4 W) = true -> PyStr.has_char "<" (input_path W) = false.
Proof.
  intro Hu. unfold input_path.
  change ("/tmp/input_" ++ uuid4 W ++ ".cho")
    with ("/tmp/input_" ++ (uuid4 W ++ ".cho")).
  cbn [append PyStr.has_char].
  rewrite (uuid_text_no_angle _ ".cho" Hu). reflexivity.
Qed.

(** What the [CalledProcessError] clause puts after its fixed prefix never
    holds the input path. *)
Lemma redacted_message_clean (W : world) (prefix text : string) :
  uuid_text (uuid4 W) = true ->
  PyStr.has_char "/" prefix = false ->
  PyStr.contains (input_path W)
    (prefix ++ PyStr.replace (input_path W) "<input>" text) = false.
Proof.
  intros Hu Hprefix. pose proof (input_path_no_angle W Hu) as Hangle.
  unfold input_path in *.
  change ("/tmp/input_" ++ uuid4 W ++ ".cho")
    with (String "/" ("tmp/input_" ++ uuid4 W ++ ".cho")) in *.
  rewrite (contains_old_after "/" _ prefix _ Hprefix).
  apply (contains_old_replace "/" "<" _ "input>" Hangle). reflexivity.
Qed.

(** ** ConversionSession: [process] *)

Lemma process_supported (W : world) (content output_format : string)
    (options : option (list (string * value))) (f : fs) :
  In output_format supported_outputs ->
  process W content output_format options f =
  let '(x, f1, log_try) :=
    process_try W content output_format (or_empty options) f in
  let (r, log_except) := process_except W x in
  let (f2, log_finally) := process_finally W f1 in
  (r, f2, log_try +++ log_except +++ log_finally).
Proof.
  intro Hin. unfold process. apply existsb_eqb_In in Hin. rewrite Hin.
  reflexivity.
Qed.

(** After the renderer has run, the [try] block is left according to its
    return code and to the presence of the output file. *)
Lemma process_try_after_run (W : world) (content output_format : string)
    (options : option (list (string * value))) (f f' : fs)
    (returncode : Z) (stdout stderr : string) :
  renderer_ran W content output_format options f f'
               (Completed returncode stdout stderr) ->
  fst (fst (process_try W content output_format (or_empty options) f)) =
  if negb (returncode =? 0) then RaisedCalledProcessError returncode stderr
  else if negb (path_exists (output_path W output_format) f')
  then RaisedException (Exn RuntimeError "ChordPro did not generate output file")
  else Returned (output_path W output_format, _get_content_type output_format).
Proof.
  intros (Hwrite & cmd & argv & Hcmd & Hargv & Hrun).
  unfold process_try. rewrite Hwrite, Hcmd, Hargv, Hrun.
  destruct (returncode =? 0); cbn [negb]; [|reflexivity].
  destruct (path_exists (output_path W output_format) f'); reflexivity.
Qed.

Lemma process_outcome (W : world) (content output_format : string)
    (options : option (list (string * value))) (f : fs) :
  In output_format supported_outputs ->
  outcome_of (process W content output_format options f) =
  fst (process_except W
         (fst (fst (process_try W content output_format (or_empty options) f)))).
Proof.
  intro Hin. rewrite (process_supported W _ _ _ _ Hin).
  destruct (process_try W content output_format (or_empty options) f)
    as [[x f1] log_try].
  cbn [fst]. destruct (process_except W x) as [r log_except].
  destruct (process_finally W f1) as [f2 log_finally]. reflexivity.
Qed.

(** C3.  When the renderer exits with a code other than 0, [process] raises
    a [RuntimeError] whose text is a fixed prefix followed by the renderer's
    standard error, trimmed, with every occurrence of the input path
    replaced by [<input>], or by a generic message when standard error is
    empty; the input path occurs nowhere in that text. *)
Theorem process_failure_message_redacted
    (W : world) (content output_format : string)
    (options : option (list (string * value))) (f f' : fs)
    (returncode : Z) (stdout stderr : string) :
  uuid_text (uuid4 W) = true ->
  In output_format supported_outputs ->
  renderer_ran W content output_format options f f'
               (Completed returncode stdout stderr) ->
  returncode <> 0 ->
  let diagnostic :=
    if nonempty stderr then PyStr.strip stderr else "Unknown ChordPro error" in
  let text :=
    "ChordPro processing failed: "
    ++ PyStr.replace (input_path W) "<input>" diagnostic in
  outcome_of (process W content output_format options f)
  = Raise (Exn RuntimeError text)
  /\ PyStr.contains (input_path W) text = false.
Proof.
  intros Hu Hin Hran Hrc diagnostic text. split.
  - rewrite (process_outcome W _ _ _ _ Hin).
    rewrite (process_try_after_run W _ _ _ _ _ _ _ _ Hran).
    apply Z.eqb_neq in Hrc. rewrite Hrc. cbn [negb process_except fst].
    fold diagnostic.
    destruct (PyStr.contains (input_path W) diagnostic) eqn:Hocc.
    + reflexivity.
    + unfold text. unfold PyStr.replace, input_path in *.
      cbn [append] in *. rewrite (replace_from_absent _ _ _ Hocc). reflexivity.
  - apply redacted_message_clean; [exact Hu | reflexivity].
Qed.

Lemma process_failure_message_redacted_witness :
  outcome_of (process failing_world "{title: Song}" "pdf" None [])
  = Raise (Exn RuntimeError
             "ChordPro processing failed: Error in <input>: no such directive")
  /\ PyStr.contains (input_path failing_world)
       "ChordPro processing failed: Error in <input>: no such directive" = false.
Proof.
  apply (process_failure_message_redacted failing_world "{title: Song}" "pdf"
           None []
           (fs_write (input_path failing_world)
                     (PyStr.encode_utf8 "{title: Song}") [])
           1 ""
           ("Error in " ++ input_path failing_world ++ ": no such directive ")).
  - reflexivity.
  - simpl. auto.
  - split; [reflexivity|]. eexists. eexists.
    split; [reflexivity|]. split; reflexivity.
  - discriminate.
Defined.

(** C9.  When the renderer exits with code 0 and the output path does not
    exist afterwards, [process] does not return: it raises a
    [RuntimeError] saying that no output file was generated. *)
Theorem process_missing_output_fails
    (W : world) (content output_format : string)
    (options : option (list (string * value))) (f f' : fs)
    (stdout stderr : string) :
  In output_format supported_outputs ->
  renderer_ran W content output_format options f f' (Completed 0 stdout stderr) ->
  path_exists (output_path W output_format) f' = false ->
  outcome_of (process W content output_format options f)
  = Raise (Exn RuntimeError
             "Processing failed: ChordPro did not generate output file").
Proof.
  intros Hin Hran Hmissing.
  rewrite (process_outcome W _ _ _ _ Hin).
  rewrite (process_try_after_run W _ _ _ _ _ _ _ _ Hran), Hmissing.
  reflexivity.
Qed.

Lemma process_missing_output_fails_witness :
  outcome_of (process quiet_world "{title: Song}" "html" (Some [("transpose", VInt 2)]) [])
  = Raise (Exn RuntimeError
             "Processing failed: ChordPro did not generate output file").
Proof.
  apply (process_missing_output_fails quiet_world "{title: Song}" "html"
           (Some [("transpose", VInt 2)]) []
           (fs_write (input_path quiet_world)
                     (PyStr.encode_utf8 "{title: Song}") [])
           "" "").
  - simpl. auto.
  - split; [reflexivity|]. eexists. eexists.
    split; [reflexivity|]. split; reflexivity.
  - reflexivity.
Defined.

Lemma path_exists_fs_remove (p : string) (f : fs) :
  path_exists p (fs_remove p f) = false.
Proof.
  unfold path_exists, fs_remove. induction f as [|e f IH]; [reflexivity|].
  simpl. destruct (String.eqb (fst e) p) eqn:E; simpl.
  - exact IH.
  - rewrite E. exact IH.
Qed.

(** The [try] block and the [except] clauses never call [os.unlink]. *)
Lemma process_outcome_with_unlink (W : world) (u : string -> fs -> option exn)
    (content output_format : string)
    (options : option (list (string * value))) (f : fs) :
  outcome_of (process (with_unlink W u) content output_format options f)
  = outcome_of (process W content output_format options f).
Proof.
  unfold process.
  destruct (negb (existsb (String.eqb output_format) supported_outputs));
    [reflexivity|].
  change (process_try (with_unlink W u)) with (process_try W).
  change (process_except (with_unlink W u)) with (process_except W).
  destruct (process_try W content output_format _ f) as [[x f1] log_try].
  destruct (process_except W x) as [r log_except].
  destruct (process_finally (with_unlink W u) f1).
  destruct (process_finally W f1). reflexivity.
Qed.

(** C2.  Whatever way [process] ends for a supported format (it returns,
    the renderer fails or times out, anything else raises), the input file
    is gone when the call is over, unless [os.unlink] itself raised, and
    then a warning was logged.  For an unsupported format no file is
    touched.  What [process] returns or raises is the same whatever
    [os.unlink] does. *)
Theorem process_removes_input_file
    (W : world) (content output_format : string)
    (options : option (list (string * value))) (f : fs) :
  let p := process W content output_format options f in
  (In output_format supported_outputs ->
   path_exists (input_path W) (files_of p) = false \/
   exists e,
     os_unlink W (input_path W) (files_of p) = Some e /\
     In (WARNING, "Failed to cleanup input file " ++ input_path W
                  ++ ": " ++ exn_str e) (log_of p)) /\
  (~ In output_format supported_outputs -> files_of p = f) /\
  (forall unlink',
     outcome_of (process (with_unlink W unlink') content output_format options f)
     = outcome_of p).
Proof.
  cbv zeta. split; [|split].
  - intro Hin. rewrite (process_supported W _ _ _ _ Hin).
    destruct (process_try W content output_format (or_empty options) f)
      as [[x f1] log_try].
    destruct (process_except W x) as [r log_except].
    unfold process_finally.
    destruct (path_exists (input_path W) f1) eqn:Hexists.
    + destruct (os_unlink W (input_path W) f1) as [e|] eqn:Hunlink.
      * right. exists e. unfold files_of, log_of. cbn [fst snd].
        split; [exact Hunlink|].
        rewrite !in_app_iff. right. right. left. reflexivity.
      * left. apply path_exists_fs_remove.
    + left. exact Hexists.
  - intro Hnot. apply existsb_eqb_not_In in Hnot. unfold process.
    rewrite Hnot. reflexivity.
  - intro unlink'. apply process_outcome_with_unlink.
Qed.

Lemma process_removes_input_file_witness :
  path_exists (input_path hanging_world)
    (files_of (process hanging_world "{title: Song}" "pdf" None [])) = false
  /\ outcome_of (process (with_unlink hanging_world stuck_unlink)
                   "{title: Song}" "pdf" None [])
     = outcome_of (process hanging_world "{title: Song}" "pdf" None []).
Proof.
  split.
  - destruct (proj1 (process_removes_input_file hanging_world
                       "{title: Song}" "pdf" None [])
                    (or_introl eq_refl)) as [Hgone | [e [Hraised _]]].
    + exact Hgone.
    + discriminate Hraised.
  - apply (proj2 (proj2 (process_removes_input_file hanging_world
                           "{title: Song}" "pdf" None []))).
Defined.

(** ** [convert]: the checks on the request body *)

Lemma repeat_char_length (c : ascii) (n : nat) :
  String.length (repeat_char c n) = n.
Proof. induction n as [|n IH]; simpl; [|rewrite IH]; reflexivity. Qed.

Lemma repeat_char_encoded_length (c : ascii) (n : nat) :
  (PyStr.ord c <? 128) = false ->
  List.length (PyStr.encode_utf8 (repeat_char c n)) = (2 * n)%nat.
Proof.
  intro Hc. induction n as [|n IH]; [reflexivity|].
  cbn [repeat_char PyStr.encode_utf8]. unfold PyStr.encode_char.
  rewrite Hc. cbn [List.app List.length]. rewrite IH. lia.
Qed.

(** A body that holds only a content of at most [1024 * 1024] characters
    passes every check. *)
Lemma convert_validate_content_only (content : string) :
  content <> "" -> PyStr.len content <= 1024 * 1024 ->
  convert_validate (VDict [("content", VStr content)])
  = Return (content, "pdf", []).
Proof.
  intros Hne Hlen. unfold convert_validate.
  cbn [truthy negb]. change (dict_get [("content", VStr content)] "content")
    with (Some (VStr content)).
  cbv iota. rewrite (truthy_str content Hne). cbn [negb].
  assert (Hle : (PyStr.len content >? 1024 * 1024) = false).
  { rewrite Z.gtb_ltb. apply Z.ltb_ge. exact Hlen. }
  rewrite Hle. reflexivity.
Qed.

(** X28.  The check on the length is made before anything touches the
    files: a content of more than [1024 * 1024] characters is refused and
    the files are as they were. *)
Lemma convert_rejects_long_content (W : world) (req : request) (f : fs)
    (items : list (string * value)) (content : string) :
  get_json req = VDict items ->
  dict_get items "content" = Some (VStr content) ->
  1024 * 1024 < PyStr.len content ->
  outcome_of (convert W req f)
  = Raise (Exn BadRequest "Content too large (max 1MB)")
  /\ files_of (convert W req f) = f.
Proof.
  intros Hjson Hcontent Hlen.
  assert (Hne : content <> "").
  { intros ->. cbn in Hlen. lia. }
  assert (Hitems : truthy (VDict items) = true).
  { destruct items; [discriminate Hcontent | reflexivity]. }
  assert (Hgt : (PyStr.len content >? 1024 * 1024) = true).
  { rewrite Z.gtb_ltb. apply Z.ltb_lt. exact Hlen. }
  unfold convert, convert_try, convert_validate.
  rewrite Hjson, Hitems. cbn [negb]. rewrite Hcontent.
  rewrite (truthy_str content Hne). cbn [negb]. rewrite Hgt.
  split; reflexivity.
Qed.

(** C5 (what the code does at the failing input).  A content of 1,048,576
    copies of the character U+00E9 is 2,097,152 bytes long in UTF-8, the
    encoding the input file is written in, and passes the length check of
    [convert], which counts characters: the request goes on to [process]. *)
Theorem convert_accepts_two_megabytes :
  let content := repeat_char "233" (Z.to_nat (1024 * 1024)) in
  Z.of_nat (List.length (PyStr.encode_utf8 content)) = 2 * (1024 * 1024)
  /\ PyStr.len content = 1024 * 1024
  /\ convert_validate (VDict [("content", VStr content)])
     = Return (content, "pdf", []).
Proof.
  intro content.
  assert (Hlen : PyStr.len content = 1024 * 1024).
  { unfold PyStr.len, content. rewrite repeat_char_length.
    apply Z2Nat.id. lia. }
  split; [|split].
  - unfold content. rewrite repeat_char_encoded_length by reflexivity.
    rewrite Nat2Z.inj_mul, Z2Nat.id by lia. reflexivity.
  - exact Hlen.
  - apply convert_validate_content_only.
    + intro Hempty. rewrite Hempty in Hlen. discriminate Hlen.
    + rewrite Hlen. apply Z.le_refl.
Qed.

(** * Further properties of the code *)

(** ** Credentials *)

(** X1.  [secure_compare_api_key] says yes only for two strings, and then
    exactly when they are the same string; [None], numbers and containers
    are never equal to anything, themselves included. *)
Theorem secure_compare_api_key_true_iff (provided_key valid_key : value) :
  secure_compare_api_key provided_key valid_key = true
  <-> exists s, provided_key = VStr s /\ valid_key = VStr s.
Proof.
  split.
  - intro H. destruct provided_key; try discriminate H.
    destruct valid_key; try discriminate H.
    apply secure_compare_api_key_eq in H. subst. eauto.
  - intros (s & -> & ->). apply secure_compare_api_key_eq. reflexivity.
Qed.

(** ** Content types *)

(** X5.  [_get_content_type] falls back to [application/octet-stream]
    exactly on the formats [process] does not support. *)
Theorem get_content_type_fallback_iff_unsupported (output_format : string) :
  _get_content_type output_format = "application/octet-stream"
  <-> ~ In output_format supported_outputs.
Proof.
  unfold _get_content_type, supported_outputs. split.
  - intros H Hin. simpl in Hin.
    destruct Hin as [<- | [<- | [<- | [<- | []]]]]; discriminate H.
  - intro Hnot.
    destruct (String.eqb output_format "pdf") eqn:E1;
      [apply String.eqb_eq in E1; subst; exfalso; apply Hnot; simpl; auto|].
    destruct (String.eqb output_format "text") eqn:E2;
      [apply String.eqb_eq in E2; subst; exfalso; apply Hnot; simpl; auto|].
    destruct (String.eqb output_format "cho") eqn:E3;
      [apply String.eqb_eq in E3; subst; exfalso; apply Hnot; simpl; auto|].
    destruct (String.eqb output_format "html") eqn:E4;
      [apply String.eqb_eq in E4; subst; exfalso; apply Hnot; simpl; auto|].
    reflexivity.
Qed.

(** ** The argument builder *)

(** X2.  Whatever order the keys of [options] come in, the builder only
    appends to the command, and in a fixed order: the [--transpose] pair,
    the [--meta] pairs in the order of the mapping, the [--config] pairs,
    the diagrams flag. *)
Theorem add_options_layout
    (W : world) (cmd : list value) (options : list (string * value)) :
  (forall v, dict_get options "meta" = Some v -> is_dict v = true) ->
  _add_options W cmd options
  = Return (cmd +++ transpose_tokens W options +++ meta_tokens W options
            +++ config_flags W options +++ diagrams_tokens options).
Proof.
  intro Hmeta.
  assert (Hmeta' : dict_get options "meta" = None \/
                   exists items, dict_get options "meta" = Some (VDict items)).
  { destruct (dict_get options "meta") as [m|]; [right | left; reflexivity].
    specialize (Hmeta m eq_refl). destruct m; try discriminate. eauto. }
  unfold _add_options, transpose_tokens, meta_tokens, config_flags,
    diagrams_tokens, config_tokens.
  destruct Hmeta' as [-> | [items ->]]; cbn [bind]; cbv zeta; f_equal;
    destruct (dict_get options "transpose") as [t|];
    destruct (dict_get options "config") as [[| | | | s | l |]|];
    destruct (dict_get options "diagrams") as [dg|];
    try destruct (truthy dg);
    rewrite ?fold_left_extend, ?app_nil_r, <- ?app_assoc; reflexivity.
Qed.

Lemma add_options_layout_witness :
  _add_options quiet_world [VStr "chordpro"]
    [("diagrams", VBool false); ("config", VList [VStr "ukulele"]);
     ("meta", VDict [("title", VStr "X"); ("artist", VStr "Y")]);
     ("transpose", VInt (-2))]
  = Return [VStr "chordpro"; VStr "--transpose"; VStr "-2";
            VStr "--meta"; VStr "title=X"; VStr "--meta"; VStr "artist=Y";
            VStr "--config"; VStr "ukulele"; VStr "--no-diagrams"].
Proof.
  apply (add_options_layout quiet_world [VStr "chordpro"]
           [("diagrams", VBool false); ("config", VList [VStr "ukulele"]);
            ("meta", VDict [("title", VStr "X"); ("artist", VStr "Y")]);
            ("transpose", VInt (-2))]).
  intros v H. injection H as <-. reflexivity.
Defined.

(** X3.  A key the builder does not know changes nothing: with or without
    it the builder gives the same answer, be it a token list or an
    exception. *)
Theorem add_options_ignores_unknown_key
    (W : world) (cmd : list value) (options : list (string * value))
    (key : string) (v : value) :
  ~ In key ["transpose"; "meta"; "config"; "diagrams"] ->
  _add_options W cmd ((key, v) :: options) = _add_options W cmd options
  /\ _add_options W cmd (without key options) = _add_options W cmd options.
Proof.
  intro Hkey.
  assert (Hne : forall k, In k ["transpose"; "meta"; "config"; "diagrams"] ->
                          key <> k).
  { intros k Hin ->. exact (Hkey Hin). }
  assert (Ht := Hne "transpose" ltac:(simpl; auto)).
  assert (Hm := Hne "meta" ltac:(simpl; auto)).
  assert (Hc := Hne "config" ltac:(simpl; auto)).
  assert (Hd := Hne "diagrams" ltac:(simpl; auto)).
  split; unfold _add_options.
  - rewrite !dict_get_cons. cbn [fst snd].
    apply String.eqb_neq in Ht, Hm, Hc, Hd. rewrite Ht, Hm, Hc, Hd.
    reflexivity.
  - rewrite !(dict_get_without_other key) by assumption. reflexivity.
Qed.

Lemma add_options_ignores_unknown_key_witness :
  _add_options quiet_world [] [("columns", VInt 2); ("transpose", VInt 3)]
  = _add_options quiet_world [] [("transpose", VInt 3)].
Proof.
  apply (proj1 (add_options_ignores_unknown_key quiet_world []
                  [("transpose", VInt 3)] "columns" (VInt 2)
                  (fun H => ltac:(simpl in H; intuition discriminate)))).
Defined.

(** X4.  A [config] given as a list is passed element by element, in list
    order, each element as it is: an element is neither trimmed nor split
    on commas, and an element that is not a string becomes a token that is
    not a string. *)
Theorem add_options_config_list
    (W : world) (cmd : list value) (options : list (string * value))
    (config_value : list value) :
  dict_get options "config" = Some (VList config_value) ->
  (forall v, dict_get options "meta" = Some v -> is_dict v = true) ->
  _add_options W cmd options
  = Return (cmd +++ transpose_tokens W options +++ meta_tokens W options
            +++ flat_map (fun config => [VStr "--config"; config]) config_value
            +++ diagrams_tokens options).
Proof.
  intros Hconfig Hmeta.
  assert (Hmeta' : dict_get options "meta" = None \/
                   exists items, dict_get options "meta" = Some (VDict items)).
  { destruct (dict_get options "meta") as [m|]; [right | left; reflexivity].
    specialize (Hmeta m eq_refl). destruct m; try discriminate. eauto. }
  unfold _add_options, transpose_tokens, meta_tokens, diagrams_tokens.
  rewrite Hconfig.
  destruct Hmeta' as [-> | [items ->]]; cbn [bind]; cbv zeta; f_equal;
    destruct (dict_get options "transpose") as [t|];
    destruct (dict_get options "diagrams") as [dg|];
    try destruct (truthy dg);
    rewrite ?fold_left_extend, ?app_nil_r, <- ?app_assoc; reflexivity.
Qed.

Lemma add_options_config_list_witness :
  _add_options quiet_world [] [("config", VList [VStr " a,b "; VInt 7])]
  = Return [VStr "--config"; VStr " a,b "; VStr "--config"; VInt 7].
Proof.
  apply (add_options_config_list quiet_world []
           [("config", VList [VStr " a,b "; VInt 7])]
           [VStr " a,b "; VInt 7] eq_refl
           (fun v H => ltac:(discriminate H))).
Defined.

(** ** The checks of [convert] on [options] *)

Lemma validate_options_cons (key : string) (v : value)
    (rest : list (string * value)) :
  validate_options ((key, v) :: rest) = Return tt
  <-> option_well_typed (key, v) /\ validate_options rest = Return tt.
Proof.
  unfold option_well_typed. cbn [validate_options fst snd].
  destruct (String.eqb key "transpose") eqn:Et.
  { apply String.eqb_eq in Et. subst key. cbn [andb].
    destruct (is_int v); cbn [negb].
    - cbn. split; [intro H | intros [_ H]; exact H].
      split; [|exact H]. repeat split; intro; try discriminate; reflexivity.
    - split; [discriminate|]. intros [[H _] _]. discriminate (H eq_refl). }
  destruct (String.eqb key "meta") eqn:Em.
  { apply String.eqb_eq in Em. subst key. cbn [andb].
    destruct (is_dict v); cbn [negb].
    - cbn. split; [intro H | intros [_ H]; exact H].
      split; [|exact H]. repeat split; intro; try discriminate; reflexivity.
    - split; [discriminate|]. intros [(_ & H & _) _]. discriminate (H eq_refl). }
  destruct (String.eqb key "diagrams") eqn:Ed.
  { apply String.eqb_eq in Ed. subst key. cbn [andb].
    destruct (is_bool v); cbn [negb].
    - cbn. split; [intro H | intros [_ H]; exact H].
      split; [|exact H]. repeat split; intro; try discriminate; reflexivity.
    - split; [discriminate|]. intros [(_ & _ & H & _) _].
      discriminate (H eq_refl). }
  destruct (String.eqb key "config") eqn:Ec.
  { apply String.eqb_eq in Ec. subst key. cbn [andb].
    destruct (is_str_or_list v); cbn [negb].
    - split; [intro H | intros [_ H]; exact H].
      split; [|exact H]. repeat split; intro; try discriminate; reflexivity.
    - split; [discriminate|]. intros [(_ & _ & _ & H) _].
      discriminate (H eq_refl). }
  cbn [andb]. apply String.eqb_neq in Et, Em, Ed, Ec.
  split; [intro H | intros [_ H]; exact H].
  split; [|exact H]. repeat split; intro; contradiction.
Qed.

Lemma validate_options_raises_BadRequest (options : list (string * value)) :
  forall e, validate_options options = Raise e -> exn_class e = BadRequest.
Proof.
  induction options as [|[key v] options IH]; intros e He.
  - discriminate He.
  - cbn [validate_options] in He.
    repeat match type of He with
           | (if ?c then _ else _) = _ =>
               destruct c; [injection He as <-; reflexivity|]
           end.
    exact (IH e He).
Qed.

(** X6.  The loop over [options] lets an object through exactly when every
    item under a known key has the type asked for ([transpose] an [int],
    and so also a [bool]; [meta] a dict; [diagrams] a [bool]; [config] a
    string or a list); unknown keys are never a reason to refuse, and
    every refusal is a [BadRequest]. *)
Theorem validate_options_accepts_iff_well_typed
    (options : list (string * value)) :
  (validate_options options = Return tt
   <-> Forall option_well_typed options) /\
  (forall e, validate_options options = Raise e -> exn_class e = BadRequest).
Proof.
  split.
  - induction options as [|[key v] options IH].
    + split; [constructor | reflexivity].
    + rewrite validate_options_cons, IH. split.
      * intros [H1 H2]. constructor; assumption.
      * intro H. inversion H; subst. auto.
  - apply validate_options_raises_BadRequest.
Qed.

(** ** The session around the renderer *)

Lemma process_try_ran (W : world) (content output_format : string)
    (options : option (list (string * value))) (f f' : fs)
    (outcome : run_outcome) :
  renderer_ran W content output_format options f f' outcome ->
  fst (fst (process_try W content output_format (or_empty options) f)) =
  match outcome with
  | TimeoutExpired => RaisedTimeoutExpired
  | RunRaised e => RaisedException e
  | Completed returncode _ stderr =>
      if negb (returncode =? 0) then RaisedCalledProcessError returncode stderr
      else if negb (path_exists (output_path W output_format) f')
      then RaisedException
             (Exn RuntimeError "ChordPro did not generate output file")
      else Returned (output_path W output_format,
                     _get_content_type output_format)
  end
  /\ snd (fst (process_try W content output_format (or_empty options) f)) = f'.
Proof.
  intros (Hwrite & cmd & argv & Hcmd & Hargv & Hrun).
  unfold process_try. rewrite Hwrite, Hcmd, Hargv, Hrun.
  destruct outcome as [returncode stdout stderr| |e]; try (split; reflexivity).
  destruct (returncode =? 0); cbn [negb]; [|split; reflexivity].
  destruct (path_exists (output_path W output_format) f'); split; reflexivity.
Qed.

Lemma process_files (W : world) (content output_format : string)
    (options : option (list (string * value))) (f : fs) :
  In output_format supported_outputs ->
  files_of (process W content output_format options f) =
  fst (process_finally W
         (snd (fst (process_try W content output_format (or_empty options) f)))).
Proof.
  intro Hin. rewrite (process_supported W _ _ _ _ Hin).
  destruct (process_try W content output_format (or_empty options) f)
    as [[x f1] log_try].
  cbn [fst snd]. destruct (process_except W x) as [r log_except].
  destruct (process_finally W f1) as [f2 log_finally]. reflexivity.
Qed.

Lemma fs_read_fs_remove_other (p q : string) (f : fs) :
  p <> q -> fs_read p (fs_remove q f) = fs_read p f.
Proof.
  intro Hne. unfold fs_read, fs_remove.
  induction f as [|e f IH]; [reflexivity|]. simpl.
  destruct (String.eqb (fst e) q) eqn:Eq; simpl.
  - apply String.eqb_eq in Eq.
    destruct (String.eqb (fst e) p) eqn:Ep; [|exact IH].
    apply String.eqb_eq in Ep. congruence.
  - destruct (String.eqb (fst e) p); [reflexivity | exact IH].
Qed.

Lemma path_exists_fs_read (p : string) (f : fs) :
  path_exists p f = true <-> exists bytes, fs_read p f = Some bytes.
Proof.
  unfold path_exists, fs_read. induction f as [|e f IH]; simpl.
  - split; [discriminate | intros [b H]; discriminate H].
  - destruct (String.eqb (fst e) p); simpl; [|exact IH].
    split; [eauto | reflexivity].
Qed.

Lemma input_output_distinct (W : world) (output_format : string) :
  output_path W output_format <> input_path W.
Proof. unfold output_path, input_path. cbn [append]. discriminate. Qed.

(** The [finally] clause of [process] leaves every other file as it is. *)
Lemma process_finally_other (W : world) (p : string) (f : fs) :
  p <> input_path W -> fs_read p (fst (process_finally W f)) = fs_read p f.
Proof.
  intro Hne. unfold process_finally.
  destruct (path_exists (input_path W) f); [|reflexivity].
  destruct (os_unlink W (input_path W) f); [reflexivity|].
  cbn [fst]. apply fs_read_fs_remove_other. exact Hne.
Qed.

(** X7.  When the renderer exits with code 0 and the output file is there,
    [process] returns the output path with the content type of the format,
    and the output file is still there, with the bytes the renderer left,
    after the input file has been cleaned up. *)
Theorem process_success_keeps_output
    (W : world) (content output_format : string)
    (options : option (list (string * value))) (f f' : fs)
    (stdout stderr : string) :
  In output_format supported_outputs ->
  renderer_ran W content output_format options f f' (Completed 0 stdout stderr) ->
  path_exists (output_path W output_format) f' = true ->
  let p := process W content output_format options f in
  outcome_of p
  = Return (output_path W output_format, _get_content_type output_format)
  /\ fs_read (output_path W output_format) (files_of p)
     = fs_read (output_path W output_format) f'
  /\ path_exists (output_path W output_format) (files_of p) = true.
Proof.
  intros Hin Hran Hout p. unfold p.
  destruct (process_try_ran W _ _ _ _ _ _ Hran) as [Hexit Hfiles].
  cbn [negb Z.eqb] in Hexit. rewrite Hout in Hexit. cbn [negb] in Hexit.
  assert (Hread : fs_read (output_path W output_format)
                    (files_of (process W content output_format options f))
                  = fs_read (output_path W output_format) f').
  { rewrite (process_files W _ _ _ _ Hin), Hfiles.
    apply process_finally_other. apply input_output_distinct. }
  split; [|split].
  - rewrite (process_outcome W _ _ _ _ Hin), Hexit. reflexivity.
  - exact Hread.
  - apply path_exists_fs_read. rewrite Hread. apply path_exists_fs_read.
    exact Hout.
Qed.

Lemma process_success_keeps_output_witness :
  outcome_of (process rendering_world "{title: Song}" "pdf" None [])
  = Return ("/tmp/output_1b9d6bcd-bbfd-4b2d-9b5d-ab8dfbbd4bed.pdf",
            "application/pdf")
  /\ fs_read "/tmp/output_1b9d6bcd-bbfd-4b2d-9b5d-ab8dfbbd4bed.pdf"
       (files_of (process rendering_world "{title: Song}" "pdf" None []))
     = Some [37; 80; 68; 70].
Proof.
  destruct (process_success_keeps_output rendering_world "{title: Song}" "pdf"
              None []
              (fs_write (output_path rendering_world "pdf") [37; 80; 68; 70]
                 (fs_write (input_path rendering_world)
                    (PyStr.encode_utf8 "{title: Song}") []))
              "" "")
    as (Hreturn & Hread & _).
  - simpl. auto.
  - split; [reflexivity|]. eexists. eexists.
    split; [reflexivity|]. split; reflexivity.
  - reflexivity.
  - split; [exact Hreturn | exact Hread].
Defined.

(** X8.  When the renderer is still running after the 30 seconds,
    [process] raises a [RuntimeError] with a fixed text, whatever the
    content, the format and the options were. *)
Theorem process_timeout_message
    (W : world) (content output_format : string)
    (options : option (list (string * value))) (f f' : fs) :
  In output_format supported_outputs ->
  renderer_ran W content output_format options f f' TimeoutExpired ->
  outcome_of (process W content output_format options f)
  = Raise (Exn RuntimeError "ChordPro processing timed out").
Proof.
  intros Hin Hran.
  destruct (process_try_ran W _ _ _ _ _ _ Hran) as [Hexit _].
  rewrite (process_outcome W _ _ _ _ Hin), Hexit. reflexivity.
Qed.

Lemma process_timeout_message_witness :
  outcome_of (process hanging_world "{title: Song}" "text" None [])
  = Raise (Exn RuntimeError "ChordPro processing timed out").
Proof.
  apply (process_timeout_message hanging_world "{title: Song}" "text" None []
           (fs_write (input_path hanging_world)
                     (PyStr.encode_utf8 "{title: Song}") [])).
  - simpl. auto.
  - split; [reflexivity|]. eexists. eexists.
    split; [reflexivity|]. split; reflexivity.
Defined.

Lemma contains_append_left (p w s : string) :
  PyStr.contains p s = true -> PyStr.contains p (w ++ s) = true.
Proof.
  intro H. induction w as [|c w IH]; [exact H|].
  cbn [append PyStr.contains]. rewrite IH. apply orb_true_r.
Qed.

(** X9.  When the input file cannot be opened or written, [process] raises
    a [RuntimeError] whose text is [Processing failed: ] followed by the
    text of the exception as it is: nothing is replaced in it, so an
    exception text that names the input path puts the input path in the
    text [process] raises. *)
Theorem process_write_failure_text_unredacted
    (W : world) (content output_format : string)
    (options : option (list (string * value))) (f : fs) (e : exn) :
  In output_format supported_outputs ->
  (open_write W (input_path W) content f = OpenFailed e \/
   exists partial, open_write W (input_path W) content f = WriteFailed partial e) ->
  outcome_of (process W content output_format options f)
  = Raise (Exn RuntimeError ("Processing failed: " ++ exn_str e))
  /\ (PyStr.contains (input_path W) (exn_str e) = true ->
      PyStr.contains (input_path W) ("Processing failed: " ++ exn_str e) = true).
Proof.
  intros Hin Hfail. split.
  - rewrite (process_outcome W _ _ _ _ Hin). unfold process_try.
    destruct Hfail as [-> | [partial ->]]; reflexivity.
  - apply contains_append_left.
Qed.

Lemma process_write_failure_text_unredacted_witness :
  outcome_of (process read_only_world "{title: Song}" "pdf" None [])
  = Raise (Exn RuntimeError
             "Processing failed: [Errno 30] Read-only file system: '/tmp/input_1b9d6bcd-bbfd-4b2d-9b5d-ab8dfbbd4bed.cho'")
  /\ PyStr.contains (input_path read_only_world)
       "Processing failed: [Errno 30] Read-only file system: '/tmp/input_1b9d6bcd-bbfd-4b2d-9b5d-ab8dfbbd4bed.cho'"
     = true.
Proof.
  destruct (process_write_failure_text_unredacted read_only_world
              "{title: Song}" "pdf" None []
              (Exn OSError
                 ("[Errno 30] Read-only file system: '"
                  ++ input_path read_only_world ++ "'")))
    as [Hraise Hleak].
  - simpl. auto.
  - left. reflexivity.
  - split; [exact Hraise | apply Hleak; reflexivity].
Defined.

Lemma str_items_all_str (cmd : list value) :
  forall i, forallb is_str cmd = true ->
    exists argv, str_items i cmd = Return argv /\ map VStr argv = cmd.
Proof.
  induction cmd as [|v cmd IH]; intros i Hall.
  - exists []. split; reflexivity.
  - cbn [forallb] in Hall. apply andb_true_iff in Hall. destruct Hall as [Hv Hall].
    destruct v; try discriminate Hv.
    destruct (IH (i + 1) Hall) as (argv & Hargv & Hmap).
    exists (s :: argv). cbn [str_items]. rewrite Hargv. cbn [bind map].
    rewrite Hmap. split; reflexivity.
Qed.

Lemma str_items_non_str (cmd : list value) :
  forall i, forallb is_str cmd = false ->
    exists e, str_items i cmd = Raise e /\ exn_class e = TypeError.
Proof.
  induction cmd as [|v cmd IH]; intros i Hsome; [discriminate Hsome|].
  cbn [forallb] in Hsome.
  destruct v; try (eexists; split; reflexivity).
  cbn [is_str andb] in Hsome. destruct (IH (i + 1) Hsome) as (e & He & Hclass).
  exists e. cbn [str_items]. rewrite He. split; [reflexivity | exact Hclass].
Qed.

Lemma forallb_is_str_config_pairs (l : list value) :
  forallb is_str (flat_map (fun config => [VStr "--config"; config]) l)
  = forallb is_str l.
Proof.
  induction l as [|v l IH]; [reflexivity|]. cbn [flat_map List.app forallb is_str].
  rewrite IH. reflexivity.
Qed.

(** When the joining of the command raises, the [try] block is left with
    that exception, the renderer not having been started. *)
Lemma process_try_join_raises (W : world) (content output_format : string)
    (options : list (string * value)) (f : fs) (cmd : list value) (e : exn) :
  open_write W (input_path W) content f = Written ->
  _add_options W
    (map VStr base_cmd
     +++ [VStr (input_path W); VStr "-o"; VStr (output_path W output_format)])
    options = Return cmd ->
  str_items 0 cmd = Raise e ->
  fst (fst (process_try W content output_format options f)) = RaisedException e.
Proof.
  intros Hwrite Hcmd Hjoin. unfold process_try.
  rewrite Hwrite, Hcmd, Hjoin. reflexivity.
Qed.

(** X10.  A [config] list with an element that is not a string never
    reaches the renderer: the command cannot be joined for the log, the
    [TypeError] is caught, and [process] raises a [RuntimeError] with its
    text, the same whatever the renderer would have done. *)
Theorem process_non_string_config_stops_before_renderer
    (W : world) (content output_format : string)
    (options : option (list (string * value))) (f : fs)
    (config_value : list value) :
  In output_format supported_outputs ->
  open_write W (input_path W) content f = Written ->
  (forall v, dict_get (or_empty options) "meta" = Some v -> is_dict v = true) ->
  dict_get (or_empty options) "config" = Some (VList config_value) ->
  forallb is_str config_value = false ->
  exists e,
    exn_class e = TypeError /\
    outcome_of (process W content output_format options f)
    = Raise (Exn RuntimeError ("Processing failed: " ++ exn_str e)) /\
    forall run',
      outcome_of (process (with_run W run') content output_format options f)
      = Raise (Exn RuntimeError ("Processing failed: " ++ exn_str e)).
Proof.
  intros Hin Hwrite Hmeta Hconfig Hbad.
  destruct (add_options_shape W
              (map VStr base_cmd
               +++ [VStr (input_path W); VStr "-o";
                    VStr (output_path W output_format)])
              (or_empty options) Hmeta) as (pre & _ & Hcmd).
  unfold config_flags in Hcmd. rewrite Hconfig in Hcmd.
  set (cmd := pre +++ _ +++ _) in Hcmd.
  assert (Hcmd_bad : forallb is_str cmd = false).
  { unfold cmd. rewrite !forallb_app, forallb_is_str_config_pairs, Hbad.
    rewrite andb_false_r. reflexivity. }
  destruct (str_items_non_str cmd 0 Hcmd_bad) as (e & Hjoin & Hclass).
  exists e. split; [exact Hclass|]. split.
  - rewrite (process_outcome W _ _ _ _ Hin).
    rewrite (process_try_join_raises W _ _ _ _ cmd e Hwrite Hcmd Hjoin).
    reflexivity.
  - intro run'. rewrite (process_outcome (with_run W run') _ _ _ _ Hin).
    rewrite (process_try_join_raises (with_run W run') _ _ _ _ cmd e
               Hwrite Hcmd Hjoin).
    reflexivity.
Qed.

Lemma process_non_string_config_stops_before_renderer_witness :
  exists e,
    exn_class e = TypeError /\
    outcome_of (process quiet_world "{title: Song}" "pdf"
                  (Some [("config", VList [VStr "ukulele"; VInt 3])]) [])
    = Raise (Exn RuntimeError ("Processing failed: " ++ exn_str e)) /\
    forall run',
      outcome_of (process (with_run quiet_world run') "{title: Song}" "pdf"
                    (Some [("config", VList [VStr "ukulele"; VInt 3])]) [])
      = Raise (Exn RuntimeError ("Processing failed: " ++ exn_str e)).
Proof.
  apply (process_non_string_config_stops_before_renderer quiet_world
           "{title: Song}" "pdf"
           (Some [("config", VList [VStr "ukulele"; VInt 3])]) []
           [VStr "ukulele"; VInt 3]).
  - simpl. auto.
  - reflexivity.
  - intros v H. discriminate H.
  - reflexivity.
  - reflexivity.
Defined.

Lemma add_options_appends
    (W : world) (cmd out : list value) (options : list (string * value)) :
  _add_options W cmd options = Return out ->
  exists tokens, out = cmd +++ tokens.
Proof.
  intro Hout.
  assert (Hmeta : forall v, dict_get options "meta" = Some v -> is_dict v = true).
  { intros v Hv. unfold _add_options in Hout. rewrite Hv in Hout.
    destruct v; try discriminate Hout. reflexivity. }
  assert (Hmeta' : dict_get options "meta" = None \/
                   exists items, dict_get options "meta" = Some (VDict items)).
  { destruct (dict_get options "meta") as [m|]; [right | left; reflexivity].
    specialize (Hmeta m eq_refl). destruct m; try discriminate. eauto. }
  unfold _add_options in Hout.
  destruct Hmeta' as [Hm | [items Hm]]; rewrite Hm in Hout;
    cbn [bind] in Hout; cbv zeta in Hout; injection Hout as <-;
    destruct (dict_get options "transpose") as [t|];
    destruct (dict_get options "config") as [[| | | | s | l |]|];
    destruct (dict_get options "diagrams") as [dg|];
    try destruct (truthy dg);
    rewrite ?fold_left_extend, <- ?app_assoc;
    first [ eexists; reflexivity
          | exists []; rewrite app_nil_r; reflexivity ].
Qed.

(** The joined command starts with the four tokens [process] puts in
    front. *)
Lemma joined_command_prefix
    (W : world) (output_format : string) (options : list (string * value))
    (cmd : list value) (argv : list string) :
  _add_options W
    (map VStr base_cmd
     +++ [VStr (input_path W); VStr "-o"; VStr (output_path W output_format)])
    options = Return cmd ->
  str_items 0 cmd = Return argv ->
  exists rest,
    argv = "chordpro" :: input_path W :: "-o" :: output_path W output_format
           :: rest.
Proof.
  intros Hcmd Hargv.
  destruct (add_options_appends W _ _ _ Hcmd) as [tokens ->].
  cbn [map base_cmd List.app str_items] in Hargv.
  destruct (str_items (0 + 1 + 1 + 1 + 1) tokens) as [rest|e];
    [|discriminate Hargv].
  cbn [bind] in Hargv. injection Hargv as <-. exists rest. reflexivity.
Qed.

(** X11.  Whatever the options are, [process] starts the renderer only with
    a command that begins with the executable, the input path, [-o] and the
    output path, in that order, and only on the files in which the input
    file holds the content: two renderers that do the same on every such
    command make [process] return, leave and log the same. *)
Theorem renderer_command_prefix
    (W : world) (content output_format : string)
    (options : option (list (string * value))) (f : fs)
    (run1 run2 : list string -> fs -> fs * run_outcome) :
  (forall rest,
     run1 ("chordpro" :: input_path W :: "-o"
           :: output_path W output_format :: rest)
          (fs_write (input_path W) (PyStr.encode_utf8 content) f)
     = run2 ("chordpro" :: input_path W :: "-o"
             :: output_path W output_format :: rest)
            (fs_write (input_path W) (PyStr.encode_utf8 content) f)) ->
  process (with_run W run1) content output_format options f
  = process (with_run W run2) content output_format options f.
Proof.
  intro Hagree.
  assert (Htry : process_try (with_run W run1) content output_format
                   (or_empty options) f
                 = process_try (with_run W run2) content output_format
                     (or_empty options) f).
  { unfold process_try.
    change (input_path (with_run W run1)) with (input_path W).
    change (input_path (with_run W run2)) with (input_path W).
    change (output_path (with_run W run1)) with (output_path W).
    change (output_path (with_run W run2)) with (output_path W).
    change (open_write (with_run W run1)) with (open_write W).
    change (open_write (with_run W run2)) with (open_write W).
    change (py_repr (with_run W run1)) with (py_repr W).
    change (py_repr (with_run W run2)) with (py_repr W).
    change (_add_options (with_run W run1)) with (_add_options W).
    change (_add_options (with_run W run2)) with (_add_options W).
    change (subprocess_run (with_run W run1)) with run1.
    change (subprocess_run (with_run W run2)) with run2.
    destruct (open_write W (input_path W) content f); try reflexivity.
    destruct (_add_options W _ (or_empty options)) as [cmd|e] eqn:Hcmd;
      [|reflexivity].
    destruct (str_items 0 cmd) as [argv|e] eqn:Hargv; [|reflexivity].
    destruct (joined_command_prefix W _ _ _ _ Hcmd Hargv) as [rest ->].
    rewrite (Hagree rest). reflexivity. }
  unfold process.
  destruct (negb (existsb (String.eqb output_format) supported_outputs));
    [reflexivity|].
  fold (or_empty options). rewrite Htry.
  change (process_except (with_run W run1)) with (process_except W).
  change (process_except (with_run W run2)) with (process_except W).
  change (process_finally (with_run W run1)) with (process_finally W).
  change (process_finally (with_run W run2)) with (process_finally W).
  reflexivity.
Qed.

Lemma renderer_command_prefix_witness :
  process (with_run quiet_world (fun _ f => (f, Completed 0 "" "")))
    "{title: Song}" "cho" (Some [("config", VStr "-o, /etc/passwd")]) []
  = process
      (with_run quiet_world
         (fun argv f =>
            match argv with
            | a :: b :: c :: d :: _ =>
                if String.eqb a "chordpro"
                   && String.eqb b (input_path quiet_world)
                   && String.eqb c "-o"
                   && String.eqb d (output_path quiet_world "cho")
                then (f, Completed 0 "" "")
                else (f, TimeoutExpired)
            | _ => (f, TimeoutExpired)
            end))
      "{title: Song}" "cho" (Some [("config", VStr "-o, /etc/passwd")]) [].
Proof.
  apply (renderer_command_prefix quiet_world "{title: Song}" "cho"
           (Some [("config", VStr "-o, /etc/passwd")]) []).
  intro rest. reflexivity.
Defined.

(** ** [convert] around [process] *)

(** When the checks raise, [convert] goes to its [except] clauses with
    the files as they were. *)
Lemma convert_checks_raise (W : world) (req : request) (f : fs) (e : exn) :
  convert_validate (get_json req) = Raise e ->
  outcome_of (convert W req f) = fst (convert_except req (Raise e))
  /\ files_of (convert W req f) = f.
Proof.
  intro Hraise. unfold convert, convert_try. rewrite Hraise.
  destruct (convert_except req (Raise e)) as [r log_except].
  split; reflexivity.
Qed.

(** When the checks pass, what [convert] answers and the files it leaves
    follow from what [process] does. *)
Lemma convert_checks_pass (W : world) (req : request) (f : fs)
    (content output_format : string) (options : list (string * value)) :
  convert_validate (get_json req) = Return (content, output_format, options) ->
  let p := process W content output_format (Some options) f in
  outcome_of (convert W req f) =
  match outcome_of p with
  | Raise e => fst (convert_except req (Raise e))
  | Return (output_path, content_type) =>
      match fs_read output_path (files_of p) with
      | Some body =>
          Return (SendFile body content_type ("output." ++ output_format))
      | None => Raise (Exn InternalServerError "Processing failed")
      end
  end
  /\ files_of (convert W req f) =
     match outcome_of p with
     | Raise _ => files_of p
     | Return (output_path, _) =>
         fst (convert_finally W (Some output_path) (files_of p))
     end.
Proof.
  intros Hpass p. unfold convert, convert_try. rewrite Hpass.
  unfold p, outcome_of, files_of.
  destruct (process W content output_format (Some options) f)
    as [[r f1] log_process].
  cbn [fst snd]. destruct r as [[out content_type]|e].
  - destruct (fs_read out f1) as [body|];
      cbn [convert_except exn_class];
      destruct (convert_finally W (Some out) f1); split; reflexivity.
  - destruct (convert_except req (Raise e)) as [r log_except].
    split; reflexivity.
Qed.

Lemma convert_validate_dict_raises_BadRequest
    (items : list (string * value)) (e : exn) :
  convert_validate (VDict items) = Raise e -> exn_class e = BadRequest.
Proof.
  unfold convert_validate. intro H.
  destruct (negb (truthy (VDict items))); [injection H as <-; reflexivity|].
  destruct (negb (truthy _)); [injection H as <-; reflexivity|].
  destruct (match dict_get items "content" with Some v => v | None => VNone end);
    try (injection H as <-; reflexivity).
  destruct (PyStr.len s >? 1024 * 1024); [injection H as <-; reflexivity|].
  destruct (match dict_get items "output_format" with
            | Some v => v | None => VStr "pdf" end);
    try (injection H as <-; reflexivity).
  destruct (match dict_get items "options" with
            | Some v => v | None => VDict [] end);
    try (injection H as <-; reflexivity).
  destruct (validate_options d) eqn:Hv; [discriminate H|].
  cbn [bind] in H. injection H as <-.
  exact (validate_options_raises_BadRequest d e0 Hv).
Qed.

(** X12.  A JSON object that fails a check of [convert] is answered with
    the [BadRequest] of that check, raised again as it is, and nothing has
    been done by then: the files are as they were, and the answer does not
    depend on the renderer or on anything else outside. *)
Theorem convert_rejects_before_any_work
    (W : world) (req : request) (f : fs)
    (items : list (string * value)) (e : exn) :
  get_json req = VDict items ->
  convert_validate (VDict items) = Raise e ->
  exn_class e = BadRequest
  /\ outcome_of (convert W req f) = Raise e
  /\ files_of (convert W req f) = f
  /\ forall W', outcome_of (convert W' req f) = Raise e.
Proof.
  intros Hjson Hraise.
  pose proof (convert_validate_dict_raises_BadRequest items e Hraise) as Hclass.
  rewrite <- Hjson in Hraise.
  assert (Hany : forall W0, outcome_of (convert W0 req f) = Raise e).
  { intro W0. destruct (convert_checks_raise W0 req f e Hraise) as [-> _].
    unfold convert_except. rewrite Hclass. reflexivity. }
  split; [exact Hclass|]. split; [apply Hany|]. split; [|exact Hany].
  apply (convert_checks_raise W req f e Hraise).
Qed.

Lemma convert_rejects_before_any_work_witness :
  outcome_of (convert rendering_world
                (Request "convert" "10.0.0.7" None
                   (VDict [("content", VStr "{title: Song}");
                           ("options", VDict [("diagrams", VInt 1)])]))
                [])
  = Raise (Exn BadRequest "'diagrams' option must be a boolean").
Proof.
  apply (proj1 (proj2 (convert_rejects_before_any_work rendering_world
                         (Request "convert" "10.0.0.7" None
                            (VDict [("content", VStr "{title: Song}");
                                    ("options", VDict [("diagrams", VInt 1)])]))
                         []
                         [("content", VStr "{title: Song}");
                          ("options", VDict [("diagrams", VInt 1)])]
                         (Exn BadRequest "'diagrams' option must be a boolean")
                         eq_refl eq_refl))).
Defined.

(** X13.  A body that is not a JSON object is never processed.  An empty
    one of any type ([null], [false], [0], an empty string, list or
    object) is a [BadRequest]; any other one (a number, a string, a
    non-empty list) makes [convert] fail on [data.get] and answer with the
    internal error [Processing failed].  The files are as they were. *)
Theorem convert_body_not_an_object
    (W : world) (req : request) (f : fs) :
  (truthy (get_json req) = false ->
   outcome_of (convert W req f) = Raise (Exn BadRequest "JSON body required"))
  /\ (truthy (get_json req) = true -> is_dict (get_json req) = false ->
      outcome_of (convert W req f)
      = Raise (Exn InternalServerError "Processing failed"))
  /\ (truthy (get_json req) = false \/ is_dict (get_json req) = false ->
      files_of (convert W req f) = f).
Proof.
  assert (Hfalsy : truthy (get_json req) = false ->
                   convert_validate (get_json req)
                   = Raise (Exn BadRequest "JSON body required")).
  { intro H. unfold convert_validate. rewrite H. reflexivity. }
  assert (Hother : truthy (get_json req) = true -> is_dict (get_json req) = false ->
                   exists e, convert_validate (get_json req) = Raise e /\
                             exn_class e = AttributeError).
  { intros Ht Hd. unfold convert_validate. rewrite Ht. cbn [negb].
    destruct (get_json req); try discriminate Hd; eexists; split; reflexivity. }
  split; [|split].
  - intro H. destruct (convert_checks_raise W req f _ (Hfalsy H)) as [-> _].
    reflexivity.
  - intros Ht Hd. destruct (Hother Ht Hd) as (e & He & Hclass).
    destruct (convert_checks_raise W req f e He) as [-> _].
    unfold convert_except. rewrite Hclass. reflexivity.
  - intro H.
    destruct (truthy (get_json req)) eqn:Ht.
    + destruct H as [H | Hd]; [discriminate H|].
      destruct (Hother eq_refl Hd) as (e & He & _).
      apply (convert_checks_raise W req f e He).
    + apply (convert_checks_raise W req f _ (Hfalsy eq_refl)).
Qed.

Lemma convert_body_not_an_object_witness :
  outcome_of (convert quiet_world
                (Request "convert" "10.0.0.7" None (VList [VStr "{title: Song}"]))
                [])
  = Raise (Exn InternalServerError "Processing failed")
  /\ outcome_of (convert quiet_world
                   (Request "convert" "10.0.0.7" None (VDict [])) [])
     = Raise (Exn BadRequest "JSON body required").
Proof.
  split.
  - apply (proj1 (proj2 (convert_body_not_an_object quiet_world
                           (Request "convert" "10.0.0.7" None
                              (VList [VStr "{title: Song}"])) [])));
      reflexivity.
  - apply (proj1 (convert_body_not_an_object quiet_world
                    (Request "convert" "10.0.0.7" None (VDict [])) [])).
    reflexivity.
Defined.

(** X14.  An [output_format] that is a string but not one of the four
    formats passes the checks of [convert] and is refused by [process]
    with a [ValueError], before any file is written; [convert] answers
    with the internal error [Processing failed], not with a
    [BadRequest]. *)
Theorem convert_unsupported_format_is_internal_error
    (W : world) (req : request) (f : fs)
    (content output_format : string) (options : list (string * value)) :
  convert_validate (get_json req) = Return (content, output_format, options) ->
  ~ In output_format supported_outputs ->
  outcome_of (process W content output_format (Some options) f)
  = Raise (Exn ValueError ("Unsupported output format: " ++ output_format))
  /\ outcome_of (convert W req f)
     = Raise (Exn InternalServerError "Processing failed")
  /\ files_of (convert W req f) = f.
Proof.
  intros Hpass Hnot.
  assert (Hprocess :
            process W content output_format (Some options) f
            = (Raise (Exn ValueError
                        ("Unsupported output format: " ++ output_format)),
               f, [])).
  { unfold process. apply existsb_eqb_not_In in Hnot. rewrite Hnot.
    reflexivity. }
  destruct (convert_checks_pass W req f _ _ _ Hpass) as [Hout Hfiles].
  cbv zeta in Hout, Hfiles. rewrite Hprocess in Hout, Hfiles.
  split; [rewrite Hprocess; reflexivity|]. split.
  - rewrite Hout. reflexivity.
  - rewrite Hfiles. reflexivity.
Qed.

Lemma convert_unsupported_format_is_internal_error_witness :
  outcome_of (convert rendering_world
                (Request "convert" "10.0.0.7" None
                   (VDict [("content", VStr "{title: Song}");
                           ("output_format", VStr "PDF")]))
                [])
  = Raise (Exn InternalServerError "Processing failed").
Proof.
  apply (proj1 (proj2 (convert_unsupported_format_is_internal_error
                         rendering_world
                         (Request "convert" "10.0.0.7" None
                            (VDict [("content", VStr "{title: Song}");
                                    ("output_format", VStr "PDF")]))
                         [] "{title: Song}" "PDF" [] eq_refl
                         (fun H => ltac:(simpl in H; intuition discriminate))))).
Defined.

Lemma path_exists_fs_remove_absent (p q : string) (f : fs) :
  path_exists p f = false -> path_exists p (fs_remove q f) = false.
Proof.
  unfold path_exists, fs_remove. induction f as [|e f IH]; [reflexivity|].
  simpl. intro H. apply orb_false_iff in H. destruct H as [He Hf].
  destruct (String.eqb (fst e) q); simpl; [exact (IH Hf)|].
  rewrite He. exact (IH Hf).
Qed.

(** With an [os.unlink] that does not raise, the [finally] clause of
    [process] leaves no input file. *)
Lemma process_finally_removes (W : world) (f : fs) :
  (forall p f0, os_unlink W p f0 = None) ->
  path_exists (input_path W) (fst (process_finally W f)) = false.
Proof.
  intro Hunlink. unfold process_finally.
  destruct (path_exists (input_path W) f) eqn:Hexists; [|exact Hexists].
  rewrite Hunlink. apply path_exists_fs_remove.
Qed.

(** X15.  A conversion that succeeds leaves nothing behind: [convert]
    answers with the bytes the renderer wrote, under the content type of
    the format and the name [output.<format>], and when [os.unlink] does
    not raise neither the input file nor the output file exists
    afterwards. *)
Theorem convert_success_leaves_no_files
    (W : world) (req : request) (f f' : fs)
    (content output_format : string) (options : list (string * value))
    (stdout stderr : string) (body : list Z) :
  convert_validate (get_json req) = Return (content, output_format, options) ->
  In output_format supported_outputs ->
  renderer_ran W content output_format (Some options) f f'
               (Completed 0 stdout stderr) ->
  fs_read (output_path W output_format) f' = Some body ->
  (forall p f0, os_unlink W p f0 = None) ->
  outcome_of (convert W req f)
  = Return (SendFile body (_get_content_type output_format)
              ("output." ++ output_format))
  /\ path_exists (input_path W) (files_of (convert W req f)) = false
  /\ path_exists (output_path W output_format) (files_of (convert W req f))
     = false.
Proof.
  intros Hpass Hin Hran Hbody Hunlink.
  assert (Hout : path_exists (output_path W output_format) f' = true).
  { apply path_exists_fs_read. eauto. }
  destruct (process_try_ran W _ _ _ _ _ _ Hran) as [Hexit Hfiles].
  cbn [negb Z.eqb] in Hexit. rewrite Hout in Hexit. cbn [negb] in Hexit.
  pose proof (process_outcome W content output_format (Some options) f Hin)
    as Hp.
  rewrite Hexit in Hp. cbn [process_except fst] in Hp.
  pose proof (process_files W content output_format (Some options) f Hin)
    as Hpf.
  rewrite Hfiles in Hpf.
  destruct (convert_checks_pass W req f _ _ _ Hpass) as [Hanswer Hleft].
  cbv zeta in Hanswer, Hleft. rewrite Hp in Hanswer, Hleft.
  assert (Hread : fs_read (output_path W output_format)
                    (files_of (process W content output_format (Some options) f))
                  = Some body).
  { rewrite Hpf, process_finally_other by apply input_output_distinct.
    exact Hbody. }
  rewrite Hread in Hanswer.
  assert (Hexists : path_exists (output_path W output_format)
                      (files_of (process W content output_format (Some options) f))
                    = true).
  { apply path_exists_fs_read. eauto. }
  split; [exact Hanswer|].
  rewrite Hleft. unfold convert_finally. rewrite Hexists, Hunlink. cbn [fst].
  split.
  - apply path_exists_fs_remove_absent. rewrite Hpf.
    apply process_finally_removes. exact Hunlink.
  - apply path_exists_fs_remove.
Qed.

Lemma convert_success_leaves_no_files_witness :
  outcome_of (convert rendering_world
                (Request "convert" "10.0.0.7" None
                   (VDict [("content", VStr "{title: Song}")])) [])
  = Return (SendFile [37; 80; 68; 70] "application/pdf" "output.pdf")
  /\ files_of (convert rendering_world
                 (Request "convert" "10.0.0.7" None
                    (VDict [("content", VStr "{title: Song}")])) [])
     = [].
Proof.
  destruct (convert_success_leaves_no_files rendering_world
              (Request "convert" "10.0.0.7" None
                 (VDict [("content", VStr "{title: Song}")]))
              []
              (fs_write (output_path rendering_world "pdf") [37; 80; 68; 70]
                 (fs_write (input_path rendering_world)
                    (PyStr.encode_utf8 "{title: Song}") []))
              "{title: Song}" "pdf" [] "" "" [37; 80; 68; 70])
    as (Hanswer & _ & _).
  - reflexivity.
  - simpl. auto.
  - split; [reflexivity|]. eexists. eexists.
    split; [reflexivity|]. split; reflexivity.
  - reflexivity.
  - reflexivity.
  - split; [exact Hanswer | reflexivity].
Defined.

(** X16.  When [process] raises after the renderer has run, [convert] does
    not know the output path and removes nothing: an output file the
    renderer had already written is still there when [convert] is over. *)
Theorem convert_failure_keeps_output_file
    (W : world) (req : request) (f f' : fs)
    (content output_format : string) (options : list (string * value))
    (outcome : run_outcome) (e : exn) :
  convert_validate (get_json req) = Return (content, output_format, options) ->
  In output_format supported_outputs ->
  renderer_ran W content output_format (Some options) f f' outcome ->
  outcome_of (process W content output_format (Some options) f) = Raise e ->
  path_exists (output_path W output_format) f' = true ->
  path_exists (output_path W output_format) (files_of (convert W req f)) = true
  /\ fs_read (output_path W output_format) (files_of (convert W req f))
     = fs_read (output_path W output_format) f'.
Proof.
  intros Hpass Hin Hran Hraise Hout.
  destruct (process_try_ran W _ _ _ _ _ _ Hran) as [_ Hfiles].
  pose proof (process_files W content output_format (Some options) f Hin)
    as Hpf.
  rewrite Hfiles in Hpf.
  destruct (convert_checks_pass W req f _ _ _ Hpass) as [_ Hleft].
  cbv zeta in Hleft. rewrite Hraise in Hleft.
  assert (Hread : fs_read (output_path W output_format)
                    (files_of (convert W req f))
                  = fs_read (output_path W output_format) f').
  { rewrite Hleft, Hpf. apply process_finally_other.
    apply input_output_distinct. }
  split; [|exact Hread].
  apply path_exists_fs_read. rewrite Hread. apply path_exists_fs_read.
  exact Hout.
Qed.

Lemma convert_failure_keeps_output_file_witness :
  path_exists "/tmp/output_1b9d6bcd-bbfd-4b2d-9b5d-ab8dfbbd4bed.pdf"
    (files_of (convert half_done_world
                 (Request "convert" "10.0.0.7" None
                    (VDict [("content", VStr "[H]Song")])) []))
  = true.
Proof.
  apply (proj1 (convert_failure_keeps_output_file half_done_world
                  (Request "convert" "10.0.0.7" None
                     (VDict [("content", VStr "[H]Song")]))
                  []
                  (fs_write (output_path half_done_world "pdf") [37; 80]
                     (fs_write (input_path half_done_world)
                        (PyStr.encode_utf8 "[H]Song") []))
                  "[H]Song" "pdf" [] (Completed 2 "" "Unknown chord: H")
                  (Exn RuntimeError
                     "ChordPro processing failed: Unknown chord: H")
                  eq_refl
                  (or_introl eq_refl)
                  (conj eq_refl
                     (ex_intro _ _ (ex_intro _ _
                        (conj eq_refl (conj eq_refl eq_refl)))))
                  eq_refl eq_refl)).
Defined.

(** X17.  [process] raises nothing but a [ValueError], for a format it
    does not support, and [RuntimeError]s: whatever goes wrong inside the
    [try] block leaves as a [RuntimeError]. *)
Theorem process_raises_only_value_or_runtime_error
    (W : world) (content output_format : string)
    (options : option (list (string * value))) (f : fs) (e : exn) :
  outcome_of (process W content output_format options f) = Raise e ->
  (exn_class e = ValueError /\ ~ In output_format supported_outputs)
  \/ (exn_class e = RuntimeError /\ In output_format supported_outputs).
Proof.
  intro Hraise.
  destruct (in_dec string_dec output_format supported_outputs) as [Hin | Hnot].
  - right. split; [|exact Hin].
    rewrite (process_outcome W _ _ _ _ Hin) in Hraise.
    destruct (fst (fst (process_try W content output_format
                          (or_empty options) f)));
      cbn [process_except fst] in Hraise;
      try discriminate Hraise; injection Hraise as <-; reflexivity.
  - left. split; [|exact Hnot].
    unfold process in Hraise. pose proof Hnot as Hb.
    apply existsb_eqb_not_In in Hb. rewrite Hb in Hraise.
    cbn in Hraise. injection Hraise as <-. reflexivity.
Qed.

Lemma process_raises_only_value_or_runtime_error_witness :
  (exn_class (Exn RuntimeError "ChordPro processing timed out") = ValueError
   /\ ~ In "html" supported_outputs)
  \/ (exn_class (Exn RuntimeError "ChordPro processing timed out") = RuntimeError
      /\ In "html" supported_outputs).
Proof.
  apply (process_raises_only_value_or_runtime_error hanging_world
           "{title: Song}" "html" None []
           (Exn RuntimeError "ChordPro processing timed out")).
  reflexivity.
Defined.

(** X18.  Whatever the request and whatever happens outside, [convert]
    raises nothing but [BadRequest] and [InternalServerError]. *)
Theorem convert_raises_only_http_errors
    (W : world) (req : request) (f : fs) (e : exn) :
  outcome_of (convert W req f) = Raise e ->
  exn_class e = BadRequest \/ exn_class e = InternalServerError.
Proof.
  unfold convert, outcome_of.
  destruct (convert_try W req f) as [[[r output] f1] log_try].
  destruct (convert_except req r) as [r' log_except] eqn:Hexcept.
  destruct (convert_finally W output f1) as [f2 log_finally].
  cbn [fst]. intros ->.
  unfold convert_except in Hexcept. destruct r as [resp|e0].
  - discriminate Hexcept.
  - destruct (exn_class e0) eqn:Hclass; injection Hexcept as <- _;
      cbn [exn_class]; auto.
Qed.

Lemma convert_raises_only_http_errors_witness :
  exn_class (Exn InternalServerError "ChordPro processing timed out") = BadRequest
  \/ exn_class (Exn InternalServerError "ChordPro processing timed out")
     = InternalServerError.
Proof.
  apply (convert_raises_only_http_errors hanging_world
           (Request "convert" "10.0.0.7" None
              (VDict [("content", VStr "{title: Song}")])) []).
  reflexivity.
Defined.

(** X19.  When the renderer exits with a code other than 0, the caller of
    [convert] gets an [InternalServerError] with the text [process] made:
    the renderer's standard error with the input path replaced, in which
    the input path does not occur. *)
Theorem convert_renderer_failure_text_redacted
    (W : world) (req : request) (f f' : fs)
    (content output_format : string) (options : list (string * value))
    (returncode : Z) (stdout stderr : string) :
  uuid_text (uuid4 W) = true ->
  convert_validate (get_json req) = Return (content, output_format, options) ->
  In output_format supported_outputs ->
  renderer_ran W content output_format (Some options) f f'
               (Completed returncode stdout stderr) ->
  returncode <> 0 ->
  let text :=
    "ChordPro processing failed: "
    ++ PyStr.replace (input_path W) "<input>"
         (if nonempty stderr then PyStr.strip stderr
          else "Unknown ChordPro error") in
  outcome_of (convert W req f) = Raise (Exn InternalServerError text)
  /\ PyStr.contains (input_path W) text = false.
Proof.
  intros Hu Hpass Hin Hran Hrc text.
  assert (Hprocess :
            outcome_of (process W content output_format (Some options) f)
            = Raise (Exn RuntimeError text)).
  { rewrite (process_outcome W _ _ _ _ Hin).
    destruct (process_try_ran W _ _ _ _ _ _ Hran) as [-> _].
    apply Z.eqb_neq in Hrc. rewrite Hrc. cbn [negb process_except fst].
    unfold text.
    destruct (PyStr.contains (input_path W)
                (if nonempty stderr then PyStr.strip stderr
                 else "Unknown ChordPro error")) eqn:Hocc.
    - reflexivity.
    - unfold PyStr.replace, input_path in *. cbn [append] in *.
      rewrite (replace_from_absent _ _ _ Hocc). reflexivity. }
  split.
  - destruct (convert_checks_pass W req f _ _ _ Hpass) as [-> _].
    rewrite Hprocess. reflexivity.
  - apply redacted_message_clean; [exact Hu | reflexivity].
Qed.

Lemma convert_renderer_failure_text_redacted_witness :
  outcome_of (convert failing_world
                (Request "convert" "10.0.0.7" None
                   (VDict [("content", VStr "{title: Song}")])) [])
  = Raise (Exn InternalServerError
             "ChordPro processing failed: Error in <input>: no such directive").
Proof.
  apply (proj1 (convert_renderer_failure_text_redacted failing_world
                  (Request "convert" "10.0.0.7" None
                     (VDict [("content", VStr "{title: Song}")]))
                  []
                  (fs_write (input_path failing_world)
                     (PyStr.encode_utf8 "{title: Song}") [])
                  "{title: Song}" "pdf" [] 1 ""
                  ("Error in " ++ input_path failing_world
                   ++ ": no such directive ")
                  eq_refl eq_refl (or_introl eq_refl)
                  (conj eq_refl
                     (ex_intro _ _ (ex_intro _ _
                        (conj eq_refl (conj eq_refl eq_refl)))))
                  (fun H => ltac:(discriminate H)))).
Defined.

(** ** The guarded route *)

(** X20.  In production mode a request to [/convert] without a valid key
    is turned away before its body is looked at: whatever the body is,
    the answer is the [Unauthorized] error, one warning is logged, with
    the address and the endpoint and nothing of the body or the key, and
    the files are as they were. *)
Theorem convert_route_unauthorized_before_body
    (W : world) (VALID_API_KEYS : list string) (req : request) (f : fs) :
  ~ In (endpoint req) ["health"; "index"] ->
  (forall k, x_api_key req = Some k ->
             is_valid_api_key VALID_API_KEYS (VStr k) = false) ->
  convert_route W VALID_API_KEYS false req f
  = (Raise (Exn Unauthorized
              "Valid API key required. Include 'X-API-Key' header."),
     f,
     [(WARNING, "Unauthorized access attempt from " ++ remote_addr req
                ++ " to " ++ endpoint req)]).
Proof.
  intros Hroute Hkey. unfold convert_route, require_api_key.
  apply existsb_eqb_not_In in Hroute. rewrite Hroute.
  destruct (x_api_key req) as [k|]; cbn [header_value].
  - rewrite (Hkey k eq_refl). cbn [negb]. rewrite orb_true_r. reflexivity.
  - reflexivity.
Qed.

Lemma convert_route_unauthorized_before_body_witness :
  convert_route rendering_world ["alpha-key"] false
    (Request "convert" "10.0.0.7" (Some "alpha-kex") (VInt 3)) []
  = (Raise (Exn Unauthorized
              "Valid API key required. Include 'X-API-Key' header."),
     [],
     [(WARNING, "Unauthorized access attempt from 10.0.0.7 to convert")]).
Proof.
  apply (convert_route_unauthorized_before_body rendering_world ["alpha-key"]
           (Request "convert" "10.0.0.7" (Some "alpha-kex") (VInt 3)) []).
  - simpl. intuition discriminate.
  - intros k Hk. injection Hk as <-. reflexivity.
Defined.

(** ** Startup and the guard together *)

Lemma is_valid_api_key_In (keys : list string) (c : string) :
  c <> "" -> (is_valid_api_key keys (VStr c) = true <-> In c keys).
Proof.
  intro Hc. unfold is_valid_api_key, is_valid_api_key_calls.
  rewrite (truthy_str c Hc). cbn [negb].
  destruct (in_dec string_dec c keys) as [Hin | Hnot].
  - destruct (is_valid_loop_present c keys Hin) as (pre & post & _ & _ & ->).
    cbn [fst]. tauto.
  - rewrite (is_valid_loop_absent c keys Hnot). cbn [fst].
    split; [discriminate | contradiction].
Qed.

Lemma load_api_keys_serving (environ : list (string * string))
    (keys : list string) (dev : bool) :
  fst (load_api_keys environ) = Serving keys dev ->
  dev = development_mode environ /\
  NoDup keys /\ forall k, In k keys <-> In k (merged_keys environ).
Proof.
  intro Hload.
  destruct (load_api_keys_state environ) as (keys0 & Hnd & Hin & Hstate).
  rewrite Hload in Hstate.
  destruct keys0 as [|k0 keys0]; destruct (development_mode environ);
    try discriminate Hstate; injection Hstate as -> ->; auto.
Qed.

(** X21.  After a start in production mode, a request to a protected route
    that carries a non-empty key is let through exactly when that key is
    one of the keys the environment gave: a trimmed, non-empty piece of
    [API_KEYS] or the trimmed value of a variable named [API_KEY_...]. *)
Theorem configured_key_opens_protected_route {A : Type} (f : A)
    (environ : list (string * string)) (keys : list string)
    (req : request) (k : string) :
  fst (load_api_keys environ) = Serving keys false ->
  ~ In (endpoint req) ["health"; "index"] ->
  x_api_key req = Some k ->
  k <> "" ->
  (fst (require_api_key f keys false req) = Return f
   <-> In k (merged_keys environ)).
Proof.
  intros Hload Hroute Hkey Hne.
  destruct (load_api_keys_serving environ keys false Hload) as (_ & _ & Hin).
  rewrite <- Hin, <- (is_valid_api_key_In keys k Hne).
  unfold require_api_key. apply existsb_eqb_not_In in Hroute. rewrite Hroute.
  rewrite Hkey. cbn [header_value]. rewrite (truthy_str k Hne). cbn [negb orb].
  destruct (is_valid_api_key keys (VStr k)); cbn [negb fst].
  - tauto.
  - split; discriminate.
Qed.

Lemma configured_key_opens_protected_route_witness :
  fst (require_api_key tt ["alpha-key"; "beta-key"] false
         (Request "formats" "10.0.0.7" (Some "beta-key") VNone))
  = Return tt.
Proof.
  apply (proj2 (configured_key_opens_protected_route tt
                  [("API_KEYS", "alpha-key"); ("API_KEY_2", " beta-key ")]
                  ["alpha-key"; "beta-key"]
                  (Request "formats" "10.0.0.7" (Some "beta-key") VNone)
                  "beta-key" eq_refl
                  (fun H => ltac:(simpl in H; intuition discriminate))
                  eq_refl
                  (fun H => ltac:(discriminate H)))).
  simpl. auto.
Defined.

(** X22.  A variable named [API_KEY_...] whose value is white space only
    counts as a key: the empty string is stored, so the process starts in
    production mode even when that is all there is, and then no request
    can ever present a valid key. *)
Theorem blank_individual_key_starts_locked
    (environ : list (string * string)) (name value : string) :
  In (name, value) environ ->
  PyStr.startswith "API_KEY_" name = true ->
  value <> "" ->
  PyStr.strip value = "" ->
  exists keys,
    fst (load_api_keys environ) = Serving keys (development_mode environ) /\
    In "" keys /\
    ((forall k, In k (merged_keys environ) -> k = "") ->
     forall candidate, is_valid_api_key keys candidate = false).
Proof.
  intros Hvar Hname Hvalue Hblank.
  assert (Hmerged : In "" (merged_keys environ)).
  { unfold merged_keys, individual_keys. apply in_or_app. right.
    apply in_map_iff. exists (name, value). split; [exact Hblank|].
    apply filter_In. split; [exact Hvar|]. cbn [fst snd]. rewrite Hname.
    unfold nonempty. destruct (String.eqb value "") eqn:E; [|reflexivity].
    apply String.eqb_eq in E. contradiction. }
  destruct (load_api_keys_state environ) as (keys & Hnd & Hin & Hstate).
  assert (Hkeys : In "" keys) by (apply Hin; exact Hmerged).
  exists keys. split; [|split; [exact Hkeys|]].
  - rewrite Hstate. destruct keys as [|k keys]; [destruct Hkeys|].
    destruct (development_mode environ); reflexivity.
  - intros Honly candidate.
    destruct candidate as [| | | |c| |];
      try (unfold is_valid_api_key, is_valid_api_key_calls;
           destruct (truthy _); [|reflexivity]; cbn [negb];
           rewrite is_valid_loop_not_str by reflexivity; reflexivity).
    destruct (String.eqb c "") eqn:Hc.
    + apply String.eqb_eq in Hc. subst c. reflexivity.
    + apply String.eqb_neq in Hc.
      destruct (is_valid_api_key keys (VStr c)) eqn:Hvalid; [|reflexivity].
      apply (is_valid_api_key_In keys c Hc) in Hvalid.
      apply Hin in Hvalid. apply Honly in Hvalid. contradiction.
Qed.

Lemma blank_individual_key_starts_locked_witness :
  exists keys,
    fst (load_api_keys [("API_KEY_1", "  ")]) = Serving keys false /\
    In "" keys /\
    ((forall k, In k [""] -> k = "") ->
     forall candidate, is_valid_api_key keys candidate = false).
Proof.
  apply (blank_individual_key_starts_locked [("API_KEY_1", "  ")]
           "API_KEY_1" "  ").
  - left. reflexivity.
  - reflexivity.
  - discriminate.
  - reflexivity.
Defined.

(** ** The health check *)

(** X23.  [/health] always answers, with the service name and the time
    stamp; the status is [healthy] with [chordpro_available] true when the
    version check exits with code 0, and [degraded] with
    [chordpro_available] false in every other case: another exit code, a
    timeout, or an exception. *)
Theorem health_reports_renderer (W : world) (timestamp : string) (f : fs) :
  exists status,
    health W timestamp f = Jsonify (VDict status) /\
    dict_get status "service" = Some (VStr "chordpro-api") /\
    dict_get status "timestamp" = Some (VStr timestamp) /\
    ((exists stdout stderr,
        snd (subprocess_run W ["chordpro"; "--version"] f)
        = Completed 0 stdout stderr) ->
     dict_get status "status" = Some (VStr "healthy") /\
     dict_get status "chordpro_available" = Some (VBool true)) /\
    (~ (exists stdout stderr,
          snd (subprocess_run W ["chordpro"; "--version"] f)
          = Completed 0 stdout stderr) ->
     dict_get status "status" = Some (VStr "degraded") /\
     dict_get status "chordpro_available" = Some (VBool false)).
Proof.
  unfold health.
  destruct (snd (subprocess_run W ["chordpro"; "--version"] f))
    as [returncode stdout stderr| |e].
  - destruct (returncode =? 0) eqn:Hrc.
    + apply Z.eqb_eq in Hrc. subst returncode. eexists.
      split; [reflexivity|]. split; [reflexivity|]. split; [reflexivity|].
      split.
      * intros _. split; reflexivity.
      * intro Hnot. exfalso. apply Hnot. eauto.
    + apply Z.eqb_neq in Hrc. eexists.
      split; [reflexivity|]. split; [reflexivity|]. split; [reflexivity|].
      split.
      * intros (so & se & H). injection H as H _ _. contradiction.
      * intros _. split; reflexivity.
  - eexists.
    split; [reflexivity|]. split; [reflexivity|]. split; [reflexivity|].
    split.
    + intros (so & se & H). discriminate H.
    + intros _. split; reflexivity.
  - eexists.
    split; [reflexivity|]. split; [reflexivity|]. split; [reflexivity|].
    split.
    + intros (so & se & H). discriminate H.
    + intros _. split; reflexivity.
Qed.

Lemma health_reports_renderer_witness :
  exists status,
    health quiet_world "2026-01-05 10:00:00,000" [] = Jsonify (VDict status) /\
    dict_get status "status" = Some (VStr "healthy") /\
    dict_get status "chordpro_available" = Some (VBool true).
Proof.
  destruct (health_reports_renderer quiet_world "2026-01-05 10:00:00,000" [])
    as (status & Hhealth & _ & _ & Hup & _).
  exists status. split; [exact Hhealth|]. apply Hup.
  exists "", "". reflexivity.
Defined.

(** ** Weak keys *)

Lemma In_around_warning (A B w T : log) (entry : level * string) :
  In entry ((A +++ B +++ w) +++ T) <-> In entry (A +++ B +++ T) \/ In entry w.
Proof. rewrite !in_app_iff. tauto. Qed.

(** The log of [load_api_keys]: the warning about weak keys among entries
    of another kind. *)
Lemma load_api_keys_log (environ : list (string * string)) :
  exists keys quiet,
    (forall k, In k keys <-> In k (merged_keys environ)) /\
    no_weak_key_warning quiet /\
    forall entry, In entry (snd (load_api_keys environ))
                  <-> In entry quiet \/ In entry (weak_key_warning keys).
Proof.
  unfold load_api_keys, merged_keys.
  set (dev := existsb _ _).
  destruct (if nonempty (getenv environ "API_KEYS" "") then _ else _)
    as [keys0 log0] eqn:Hfirst.
  assert (Hkeys0 : NoDup keys0 /\
                   (forall k, In k keys0 <-> In k (aggregate_keys environ)) /\
                   no_weak_key_warning log0).
  { destruct (nonempty (getenv environ "API_KEYS" "")) eqn:Hagg;
      injection Hfirst as <- <-.
    - fold (aggregate_keys environ).
      destruct (set_update_spec (aggregate_keys environ) [] (NoDup_nil _))
        as [Hnd0 Hin0].
      split; [exact Hnd0|]. split; [|repeat constructor].
      intro k. rewrite (Hin0 k). simpl. tauto.
    - rewrite (aggregate_keys_unset environ Hagg).
      split; [constructor|]. split; [intro k; tauto | constructor]. }
  destruct Hkeys0 as (Hnd0 & Hin0 & Hlog0).
  pose proof (individual_keys_fold environ keys0 0 Hnd0) as Hfold.
  cbn zeta in Hfold. destruct (fold_left _ environ _) as [keys n].
  cbn [fst] in Hfold. destruct Hfold as [_ Hin]. cbv zeta.
  fold (weak_key_warning keys). exists keys.
  assert (Hmerged : forall k, In k keys <->
            In k (aggregate_keys environ +++ individual_keys environ)).
  { intro k. rewrite (Hin k), (Hin0 k), in_app_iff. tauto. }
  assert (Hlog1 : no_weak_key_warning
            (if 0 <? n
             then [(INFO, "Loaded " ++ PyStr.of_int n
                          ++ " additional API keys from individual environment variables")]
             else [])).
  { destruct (0 <? n); repeat constructor. }
  destruct keys as [|k keys]; destruct dev; cbn [snd];
    (eexists; split; [exact Hmerged|]; split;
     [|intro entry; apply In_around_warning]);
    unfold no_weak_key_warning in *; rewrite !Forall_app;
    repeat split; try assumption; repeat constructor.
Qed.

(** X24.  [load_api_keys] logs its warning about weak keys exactly when one
    of the keys the environment gave is shorter than 16 characters. *)
Theorem load_api_keys_warns_on_short_keys (environ : list (string * string)) :
  (exists k, In k (merged_keys environ) /\ PyStr.len k < 16)
  <-> exists n,
        In (WARNING, "Found " ++ n
                     ++ " API keys shorter than 16 characters - consider using stronger keys")
           (snd (load_api_keys environ)).
Proof.
  destruct (load_api_keys_log environ) as (keys & quiet & Hin & Hquiet & Hlog).
  split.
  - intros (k & Hk & Hshort).
    assert (Hweak : In k (filter (fun key => PyStr.len key <? 16) keys)).
    { apply filter_In. split; [apply Hin; exact Hk|]. apply Z.ltb_lt. exact Hshort. }
    exists (count (filter (fun key => PyStr.len key <? 16) keys)).
    apply Hlog. right. unfold weak_key_warning.
    destruct (filter (fun key => PyStr.len key <? 16) keys);
      [destruct Hweak | left; reflexivity].
  - intros (n & Hentry). apply Hlog in Hentry. destruct Hentry as [Hq | Hw].
    + exfalso. unfold no_weak_key_warning in Hquiet.
      rewrite Forall_forall in Hquiet. specialize (Hquiet _ Hq).
      discriminate Hquiet.
    + unfold weak_key_warning in Hw.
      destruct (filter (fun key => PyStr.len key <? 16) keys) as [|w ws] eqn:Hf;
        [destruct Hw|].
      assert (Hwin : In w (filter (fun key => PyStr.len key <? 16) keys)).
      { rewrite Hf. left. reflexivity. }
      apply filter_In in Hwin. destruct Hwin as [Hwk Hlen].
      exists w. split; [apply Hin; exact Hwk | apply Z.ltb_lt; exact Hlen].
Qed.

Lemma load_api_keys_warns_on_short_keys_witness :
  exists n,
    In (WARNING, "Found " ++ n
                 ++ " API keys shorter than 16 characters - consider using stronger keys")
       (snd (load_api_keys [("API_KEYS", "a-long-enough-key-0001, short")])).
Proof.
  apply (proj1 (load_api_keys_warns_on_short_keys
                  [("API_KEYS", "a-long-enough-key-0001, short")])).
  exists "short". split; [simpl; auto | reflexivity].
Defined.

(** ** The keys of the aggregate variable *)

Lemma split_no_sep (sep : ascii) (s : string) :
  forall p, In p (PyStr.split sep s) -> PyStr.has_char sep p = false.
Proof.
  induction s as [|c s IH]; intros p Hp.
  - destruct Hp as [<- | []]. reflexivity.
  - cbn [PyStr.split] in Hp. destruct (Ascii.eqb c sep) eqn:Hc.
    + destruct Hp as [<- | Hp]; [reflexivity | exact (IH p Hp)].
    + destruct (PyStr.split sep s) as [|p0 ps].
      * destruct Hp as [<- | []]. cbn. rewrite Ascii.eqb_sym, Hc. reflexivity.
      * destruct Hp as [<- | Hp].
        -- cbn [PyStr.has_char]. rewrite Ascii.eqb_sym, Hc.
           apply IH. left. reflexivity.
        -- apply IH. right. exact Hp.
Qed.

Lemma has_char_lstrip (c : ascii) (s : string) :
  PyStr.has_char c s = false -> PyStr.has_char c (PyStr.lstrip s) = false.
Proof.
  induction s as [|d s IH]; intro H; [reflexivity|].
  cbn [PyStr.lstrip]. destruct (PyStr.isspace d); [|exact H].
  cbn [PyStr.has_char] in H. apply orb_false_iff in H. apply IH. apply H.
Qed.

Lemma has_char_rstrip (c : ascii) (s : string) :
  PyStr.has_char c s = false -> PyStr.has_char c (PyStr.rstrip s) = false.
Proof.
  induction s as [|d s IH]; intro H; [reflexivity|].
  cbn [PyStr.has_char] in H. apply orb_false_iff in H. destruct H as [Hd Hs].
  specialize (IH Hs). cbn [PyStr.rstrip].
  destruct (PyStr.rstrip s) as [|r0 r].
  - destruct (PyStr.isspace d); [reflexivity|]. cbn. rewrite Hd. reflexivity.
  - cbn [PyStr.has_char]. rewrite Hd. exact IH.
Qed.

Lemma rstrip_idempotent (s : string) :
  PyStr.rstrip (PyStr.rstrip s) = PyStr.rstrip s.
Proof.
  induction s as [|c s IH]; [reflexivity|]. cbn [PyStr.rstrip].
  destruct (PyStr.rstrip s) as [|r0 r] eqn:Hr.
  - destruct (PyStr.isspace c) eqn:Hc; [reflexivity|].
    cbn [PyStr.rstrip]. rewrite Hc. reflexivity.
  - cbn [PyStr.rstrip]. cbn [PyStr.rstrip] in IH. rewrite IH. reflexivity.
Qed.

(** What [lstrip] gives is empty or starts with a character that is not
    white space, and [rstrip] keeps that. *)
Lemma lstrip_rstrip_lstrip (s : string) :
  PyStr.lstrip (PyStr.rstrip (PyStr.lstrip s)) = PyStr.rstrip (PyStr.lstrip s).
Proof.
  induction s as [|c s IH]; [reflexivity|]. cbn [PyStr.lstrip].
  destruct (PyStr.isspace c) eqn:Hc; [exact IH|].
  cbn [PyStr.rstrip]. destruct (PyStr.rstrip s); rewrite ?Hc;
    cbn [PyStr.lstrip]; rewrite Hc; reflexivity.
Qed.

Lemma strip_idempotent (s : string) : PyStr.strip (PyStr.strip s) = PyStr.strip s.
Proof.
  unfold PyStr.strip. rewrite lstrip_rstrip_lstrip. apply rstrip_idempotent.
Qed.

(** X25.  Every key taken from [API_KEYS] is non-empty, holds no comma and
    has no white space at either end. *)
Theorem aggregate_keys_are_trimmed_pieces
    (environ : list (string * string)) (k : string) :
  In k (aggregate_keys environ) ->
  k <> "" /\ PyStr.has_char "," k = false /\ PyStr.strip k = k.
Proof.
  unfold aggregate_keys. intro Hk. apply filter_In in Hk.
  destruct Hk as [Hpiece Hne]. apply in_map_iff in Hpiece.
  destruct Hpiece as (piece & <- & Hpiece). split; [|split].
  - intro Hempty. rewrite Hempty in Hne. discriminate Hne.
  - unfold PyStr.strip. apply has_char_rstrip, has_char_lstrip.
    exact (split_no_sep "," _ piece Hpiece).
  - apply strip_idempotent.
Qed.

Lemma aggregate_keys_are_trimmed_pieces_witness :
  "alpha-key" <> "" /\ PyStr.has_char "," "alpha-key" = false
  /\ PyStr.strip "alpha-key" = "alpha-key".
Proof.
  apply (aggregate_keys_are_trimmed_pieces
           [("API_KEYS", " alpha-key ,, beta-key")] "alpha-key").
  simpl. auto.
Defined.

(** ** What [process] hands back *)

(** The [try] block returns only after it has seen the output file. *)
Lemma process_try_returned (W : world) (content output_format : string)
    (options : list (string * value)) (f : fs) (r : string * string) :
  fst (fst (process_try W content output_format options f)) = Returned r ->
  r = (output_path W output_format, _get_content_type output_format)
  /\ path_exists (output_path W output_format)
       (snd (fst (process_try W content output_format options f))) = true.
Proof.
  unfold process_try.
  destruct (open_write W (input_path W) content f); try discriminate.
  destruct (_add_options W _ options); try discriminate.
  destruct (str_items 0 a) as [argv|]; try discriminate.
  destruct (subprocess_run W argv _) as [f1 outcome].
  destruct outcome as [returncode stdout stderr| |e]; try discriminate.
  destruct (negb (returncode =? 0)); try discriminate.
  destruct (path_exists (output_path W output_format) f1) eqn:Hout;
    cbn [negb fst snd]; try discriminate.
  intro H. injection H as <-. split; [reflexivity | exact Hout].
Qed.

(** What [process] returns can be read: it is the output path of the
    session, and the file is among the files left. *)
Lemma process_return_readable
    (W : world) (content output_format : string)
    (options : option (list (string * value))) (f : fs)
    (path content_type : string) :
  outcome_of (process W content output_format options f)
  = Return (path, content_type) ->
  path = output_path W output_format
  /\ content_type = _get_content_type output_format
  /\ exists body,
       fs_read path (files_of (process W content output_format options f))
       = Some body.
Proof.
  intro Hreturn.
  assert (Hin : In output_format supported_outputs).
  { destruct (in_dec string_dec output_format supported_outputs) as [H | H];
      [exact H|].
    unfold process in Hreturn. apply existsb_eqb_not_In in H.
    rewrite H in Hreturn. discriminate Hreturn. }
  rewrite (process_outcome W _ _ _ _ Hin) in Hreturn.
  destruct (fst (fst (process_try W content output_format (or_empty options) f)))
    as [r| | |e] eqn:Hexit; try discriminate Hreturn.
  cbn [process_except fst] in Hreturn. injection Hreturn as ->.
  destruct (process_try_returned W _ _ _ _ _ Hexit) as [Hr Hexists].
  injection Hr as -> ->. split; [reflexivity|]. split; [reflexivity|].
  rewrite (process_files W _ _ _ _ Hin).
  rewrite process_finally_other by apply input_output_distinct.
  apply path_exists_fs_read. exact Hexists.
Qed.

(** For a supported format, what [process] raises is a [RuntimeError]. *)
Lemma process_supported_raises_runtime
    (W : world) (content output_format : string)
    (options : option (list (string * value))) (f : fs) (e : exn) :
  In output_format supported_outputs ->
  outcome_of (process W content output_format options f) = Raise e ->
  exn_class e = RuntimeError.
Proof.
  intros Hin Hraise. rewrite (process_outcome W _ _ _ _ Hin) in Hraise.
  destruct (fst (fst (process_try W content output_format
                        (or_empty options) f)));
    cbn [process_except fst] in Hraise;
    try discriminate Hraise; injection Hraise as <-; reflexivity.
Qed.

(** X26.  Whenever [process] returns, what it returns is the output path
    of the session with the content type of the format, and the file at
    that path exists in the files [process] leaves: the clean-up of the
    input file never removes it. *)
Theorem process_returns_existing_output
    (W : world) (content output_format : string)
    (options : option (list (string * value))) (f : fs)
    (path content_type : string) :
  outcome_of (process W content output_format options f)
  = Return (path, content_type) ->
  path = output_path W output_format
  /\ content_type = _get_content_type output_format
  /\ path_exists path (files_of (process W content output_format options f))
     = true.
Proof.
  intro Hreturn.
  assert (Hin : In output_format supported_outputs).
  { destruct (in_dec string_dec output_format supported_outputs) as [H | H];
      [exact H|].
    unfold process in Hreturn. apply existsb_eqb_not_In in H.
    rewrite H in Hreturn. discriminate Hreturn. }
  rewrite (process_outcome W _ _ _ _ Hin) in Hreturn.
  destruct (fst (fst (process_try W content output_format (or_empty options) f)))
    as [r| | |e] eqn:Hexit; try discriminate Hreturn.
  cbn [process_except fst] in Hreturn. injection Hreturn as ->.
  destruct (process_try_returned W _ _ _ _ _ Hexit) as [Hr Hexists].
  injection Hr as -> ->. split; [reflexivity|]. split; [reflexivity|].
  rewrite (process_files W _ _ _ _ Hin).
  apply path_exists_fs_read.
  rewrite process_finally_other by apply input_output_distinct.
  apply path_exists_fs_read. exact Hexists.
Qed.

Lemma process_returns_existing_output_witness :
  "/tmp/output_1b9d6bcd-bbfd-4b2d-9b5d-ab8dfbbd4bed.text"
  = output_path rendering_world "text"
  /\ "text/plain" = _get_content_type "text"
  /\ path_exists "/tmp/output_1b9d6bcd-bbfd-4b2d-9b5d-ab8dfbbd4bed.text"
       (files_of (process rendering_world "{title: Song}" "text" None []))
     = true.
Proof.
  apply (process_returns_existing_output rendering_world "{title: Song}"
           "text" None []).
  reflexivity.
Defined.

(** The files [process] leaves differ with [os.unlink] at most at the
    input path. *)
Lemma process_files_with_unlink (W : world) (u : string -> fs -> option exn)
    (content output_format : string)
    (options : option (list (string * value))) (f : fs) (p : string) :
  p <> input_path W ->
  fs_read p (files_of (process (with_unlink W u) content output_format options f))
  = fs_read p (files_of (process W content output_format options f)).
Proof.
  intro Hp.
  destruct (in_dec string_dec output_format supported_outputs) as [Hin | Hnot].
  - rewrite (process_files (with_unlink W u) _ _ _ _ Hin).
    rewrite (process_files W _ _ _ _ Hin).
    change (process_try (with_unlink W u)) with (process_try W).
    rewrite (process_finally_other (with_unlink W u)) by exact Hp.
    rewrite (process_finally_other W) by exact Hp. reflexivity.
  - unfold process. apply existsb_eqb_not_In in Hnot. rewrite Hnot.
    reflexivity.
Qed.

(** X27.  What [convert] answers, a response or an error, does not depend
    on [os.unlink]: no failure to remove the input file or the output file
    changes the answer. *)
Theorem convert_answer_independent_of_unlink
    (W : world) (u : string -> fs -> option exn) (req : request) (f : fs) :
  outcome_of (convert (with_unlink W u) req f) = outcome_of (convert W req f).
Proof.
  destruct (convert_validate (get_json req)) as [[[content output_format] options]|e]
    eqn:Hchecks.
  - destruct (convert_checks_pass (with_unlink W u) req f _ _ _ Hchecks)
      as [-> _].
    destruct (convert_checks_pass W req f _ _ _ Hchecks) as [-> _].
    rewrite process_outcome_with_unlink.
    destruct (outcome_of (process W content output_format (Some options) f))
      as [[path content_type]|e] eqn:Hp; [|reflexivity].
    destruct (process_return_readable W _ _ _ _ _ _ Hp) as (-> & _ & _).
    rewrite process_files_with_unlink by apply input_output_distinct.
    reflexivity.
  - destruct (convert_checks_raise (with_unlink W u) req f e Hchecks) as [-> _].
    destruct (convert_checks_raise W req f e Hchecks) as [-> _]. reflexivity.
Qed.

(** ** The size limit *)

Lemma convert_rejects_long_content_witness :
  outcome_of (convert rendering_world
                (Request "convert" "10.0.0.7" None
                   (VDict [("content",
                            VStr (repeat_char "a" (Z.to_nat (1024 * 1024 + 1))))]))
                [])
  = Raise (Exn BadRequest "Content too large (max 1MB)")
  /\ files_of (convert rendering_world
                 (Request "convert" "10.0.0.7" None
                    (VDict [("content",
                             VStr (repeat_char "a" (Z.to_nat (1024 * 1024 + 1))))]))
                 [])
     = [].
Proof.
  apply (convert_rejects_long_content rendering_world
           (Request "convert" "10.0.0.7" None
              (VDict [("content",
                       VStr (repeat_char "a" (Z.to_nat (1024 * 1024 + 1))))]))
           []
           [("content", VStr (repeat_char "a" (Z.to_nat (1024 * 1024 + 1))))]
           (repeat_char "a" (Z.to_nat (1024 * 1024 + 1)))
           eq_refl eq_refl).
  unfold PyStr.len. rewrite repeat_char_length, Z2Nat.id; lia.
Defined.

(** ** The default format *)

(** C10.  A body with a valid content and valid options and no
    [output_format] is not refused: it passes the checks with the format
    [pdf], and [convert] goes on to call [process] with [pdf].  What
    [convert] answers is what that call gives: the file at the [pdf] output
    path, as [application/pdf] under the name [output.pdf], when [process]
    returns, and an [InternalServerError] with the text of the
    [RuntimeError] when [process] raises; it is never a [BadRequest].
    [convert] does the same on the same body with [output_format] set to
    [pdf]; [pdf] is a format [process] supports and the one [get_formats]
    gives as [default_format]. *)
Theorem convert_defaults_to_pdf
    (W : world) (req : request) (f : fs)
    (items options : list (string * value)) (content : string) :
  get_json req = VDict items ->
  dict_get items "content" = Some (VStr content) ->
  content <> "" ->
  PyStr.len content <= 1024 * 1024 ->
  dict_get items "output_format" = None ->
  match dict_get items "options" with Some v => v | None => VDict [] end
  = VDict options ->
  validate_options options = Return tt ->
  let p := process W content "pdf" (Some options) f in
  convert_validate (get_json req) = Return (content, "pdf", options)
  /\ convert W req f
     = convert W (Request (endpoint req) (remote_addr req) (x_api_key req)
                    (VDict (("output_format", VStr "pdf") :: items))) f
  /\ In "pdf" supported_outputs
  /\ get_formats
     = Jsonify (VDict [("supported_formats", VList (map VStr supported_outputs));
                       ("default_format", VStr "pdf")])
  /\ (forall path content_type,
        outcome_of p = Return (path, content_type) ->
        exists body,
          fs_read (output_path W "pdf") (files_of p) = Some body /\
          outcome_of (convert W req f)
          = Return (SendFile body "application/pdf" "output.pdf"))
  /\ (forall e,
        outcome_of p = Raise e ->
        outcome_of (convert W req f)
        = Raise (Exn InternalServerError (exn_str e)))
  /\ (forall e,
        outcome_of (convert W req f) = Raise e ->
        exn_class e = InternalServerError).
Proof.
  intros Hjson Hcontent Hne Hlen Hformat Hoptions Hvalid p. subst p.
  set (p := process W content "pdf" (Some options) f).
  assert (Hitems : truthy (VDict items) = true).
  { destruct items; [discriminate Hcontent | reflexivity]. }
  assert (Hle : (PyStr.len content >? 1024 * 1024) = false).
  { rewrite Z.gtb_ltb. apply Z.ltb_ge. exact Hlen. }
  assert (Himplicit :
            convert_validate (VDict items) = Return (content, "pdf", options)).
  { unfold convert_validate. rewrite Hitems. cbn [negb].
    rewrite Hcontent, (truthy_str content Hne). cbn [negb].
    rewrite Hle, Hformat, Hoptions, Hvalid. reflexivity. }
  assert (Hexplicit :
            convert_validate (VDict (("output_format", VStr "pdf") :: items))
            = Return (content, "pdf", options)).
  { unfold convert_validate. cbn [truthy negb].
    rewrite !dict_get_cons. cbn [fst snd String.eqb Ascii.eqb Bool.eqb].
    rewrite Hcontent, (truthy_str content Hne). cbn [negb].
    rewrite Hle, Hoptions, Hvalid. reflexivity. }
  assert (Hpass : convert_validate (get_json req)
                  = Return (content, "pdf", options)).
  { rewrite Hjson. exact Himplicit. }
  assert (Hpdf : In "pdf" supported_outputs) by (simpl; auto).
  destruct (convert_checks_pass W req f _ _ _ Hpass) as [Hanswer _].
  cbv zeta in Hanswer. fold p in Hanswer.
  assert (Hreturned : forall path content_type,
            outcome_of p = Return (path, content_type) ->
            exists body,
              fs_read (output_path W "pdf") (files_of p) = Some body /\
              outcome_of (convert W req f)
              = Return (SendFile body "application/pdf" "output.pdf")).
  { intros path content_type Hp.
    destruct (process_return_readable W _ _ _ _ _ _ Hp)
      as (Hpath & Htype & body & Hbody).
    subst path content_type. fold p in Hbody.
    exists body. split; [exact Hbody|].
    rewrite Hanswer, Hp. cbv beta iota. rewrite Hbody. reflexivity. }
  assert (Hraised : forall e,
            outcome_of p = Raise e ->
            outcome_of (convert W req f)
            = Raise (Exn InternalServerError (exn_str e))).
  { intros e Hp. rewrite Hanswer, Hp. unfold convert_except.
    rewrite (process_supported_raises_runtime W _ _ _ _ e Hpdf Hp).
    reflexivity. }
  split; [exact Hpass|]. split; [|split; [exact Hpdf|]].
  - unfold convert, convert_try. cbn [get_json remote_addr].
    rewrite Hjson, Himplicit, Hexplicit. reflexivity.
  - split; [reflexivity|]. split; [exact Hreturned|].
    split; [exact Hraised|].
    intros e He. destruct (outcome_of p) as [[path content_type]|e0] eqn:Hp.
    + destruct (Hreturned path content_type eq_refl) as (body & _ & Hout).
      rewrite Hout in He. discriminate He.
    + rewrite (Hraised e0 eq_refl) in He. injection He as <-. reflexivity.
Qed.

Lemma convert_defaults_to_pdf_witness :
  convert_validate
    (VDict [("content", VStr "{title: Song}"); ("options", VDict [("transpose", VInt 2)])])
  = Return ("{title: Song}", "pdf", [("transpose", VInt 2)])
  /\ outcome_of
       (convert rendering_world
          (Request "convert" "10.0.0.7" None
             (VDict [("content", VStr "{title: Song}");
                     ("options", VDict [("transpose", VInt 2)])]))
          [])
     = Return (SendFile [37; 80; 68; 70] "application/pdf" "output.pdf").
Proof.
  destruct (convert_defaults_to_pdf rendering_world
              (Request "convert" "10.0.0.7" None
                 (VDict [("content", VStr "{title: Song}");
                         ("options", VDict [("transpose", VInt 2)])]))
              []
              [("content", VStr "{title: Song}");
               ("options", VDict [("transpose", VInt 2)])]
              [("transpose", VInt 2)] "{title: Song}"
              eq_refl eq_refl
              (fun H => ltac:(discriminate H))
              ltac:(cbv; discriminate)
              eq_refl eq_refl eq_refl)
    as (Hchecks & _ & _ & _ & Hreturned & _ & _).
  split; [exact Hchecks|].
  destruct (Hreturned _ _ eq_refl) as (body & Hbody & Hanswer).
  assert (Hsame : Some [37; 80; 68; 70] = Some body) by exact Hbody.
  injection Hsame as <-. exact Hanswer.
Defined.
